(** * The to-do list back end (src/backend/back.js)

    A shallow embedding of the Express application of [back.js]: the two
    Mongoose collections, the [authenticate] middleware and the five
    routes, followed by the properties of the authentication flow and of
    the owner-scoped task routes.

    What [back.js] calls but does not define is kept behind interfaces:
    - [jsonwebtoken] ([jwt.sign], [jwt.verify]) is the class [Jwt];
    - [bcryptjs] ([bcrypt.hash], [bcrypt.compare]) is the class [Bcrypt];
    - the BSON ObjectId codec used by Mongoose is the class [ObjectIdCodec].
    MongoDB itself is modelled concretely: a collection is the list of its
    documents in insertion order, [_id] carries its unique index, and
    [username] carries the unique index declared by [UserSchema].

    A request is what the routes read of it after [express.json()]: the
    Authorization header, the route parameter, and the body fields;
    [undefined] is [None]. The username and the text are strings when
    present; the password, which goes to [bcryptjs] as it came, is any
    JSON scalar.

    The handlers are written once, over the operations of the two
    Mongoose models (the class [Store]). The operations are given for the
    database alone ([Db]: a store that answers) and for a database with
    its connection state and the list of the operations called
    ([World]). *)

From Stdlib Require Import ZArith Lia Ascii.
From stdpp Require Import base decidable option list strings countable.

Local Open Scope string_scope.
Local Open Scope list_scope.
Local Open Scope Z_scope.

(** ** JavaScript values *)

(** The scalar JSON values; a property that is absent reads as [None]. *)
Inductive JsVal : Type :=
  | JNull
  | JBool (b : bool)
  | JNum (n : Z)
  | JStr (s : string).

#[global] Instance JsVal_eq_dec : EqDecision JsVal.
Proof. solve_decision. Defined.

#[global] Instance JsVal_countable : Countable JsVal.
Proof.
  refine (inj_countable'
    (λ v, match v with
          | JNull => inl ()
          | JBool b => inr (inl b)
          | JNum n => inr (inr (inl n))
          | JStr s => inr (inr (inr s))
          end)
    (λ x, match x with
          | inl _ => JNull
          | inr (inl b) => JBool b
          | inr (inr (inl n)) => JNum n
          | inr (inr (inr s)) => JStr s
          end) _); by intros [].
Defined.

(** A string where a JSON value is expected is that string as a value. *)
Coercion JStr : string >-> JsVal.
Arguments Some {A} & a.

(** A plain object, as an association list in property order. *)
Definition JsObject : Type := list (string * JsVal).

(** [o[k]]: the first binding of [k], [None] for [undefined]. *)
Fixpoint js_get (k : string) (o : JsObject) : option JsVal :=
  match o with
  | [] => None
  | (k', v) :: o' => if decide (k = k') then Some v else js_get k o'
  end.

(** [!s] on a request field: [undefined] and the empty string are falsy. *)
Definition js_not (v : option string) : bool :=
  match v with
  | None => true
  | Some s => bool_decide (s = "")
  end.

(** The value of a field that passed the [!v] test. *)
Definition js_str (v : option string) : string := default "" v.

(** [!v] on a field that holds any JSON scalar: [undefined], [null],
    [false], [0] and the empty string are falsy. *)
Definition js_not_val (v : option JsVal) : bool :=
  match v with
  | None | Some JNull => true
  | Some (JBool b) => negb b
  | Some (JNum n) => bool_decide (n = 0)
  | Some (JStr s) => bool_decide (s = "")
  end.

(** ** Interfaces of the libraries *)

(** MongoDB ObjectIds are 12-byte values. *)
Definition ObjectId : Type := N.
Bind Scope N_scope with ObjectId.

(** [toHexString] is how an ObjectId is written into JSON (and so into a
    token payload and into a URL); [castObjectId] is Mongoose's cast of a
    value to the ObjectId schema type, [None] when it raises CastError. *)
Class ObjectIdCodec : Type := {
  toHexString : ObjectId → string;
  castObjectId : JsVal → option ObjectId;
  castObjectId_toHexString :
    ∀ i, castObjectId (JStr (toHexString i)) = Some i
}.

(** The characters of a compact JWS: base64url and the separating dot. *)
Definition jws_char (c : ascii) : bool :=
  let n := nat_of_ascii c in
  ((48 <=? n) && (n <=? 57))%nat || ((65 <=? n) && (n <=? 90))%nat
  || ((97 <=? n) && (n <=? 122))%nat
  || (n =? 45)%nat || (n =? 95)%nat || (n =? 46)%nat.

Fixpoint jws_chars (s : string) : bool :=
  match s with
  | EmptyString => true
  | String c s' => jws_char c && jws_chars s'
  end.

(** A necessary condition for a string to be a compact JWS. *)
Definition jws_shape (s : string) : bool :=
  negb (bool_decide (s = "")) && jws_chars s.

(** The claims [jwt.sign] adds to a payload signed at [t] for [d] seconds. *)
Definition stamp (p : JsObject) (t d : Z) : JsObject :=
  p ++ [("iat", JNum t); ("exp", JNum (t + d))].

(** [jwt_sign payload secret expiresIn clock] and
    [jwt_verify token secret clock]; the clock is in seconds.
    [jwt_verify] is [None] where [jwt.verify] throws. *)
Class Jwt : Type := {
  jwt_sign : JsObject → string → Z → Z → string;
  jwt_verify : string → string → Z → option JsObject;
  jwt_verify_sign : ∀ p k d t t',
    js_get "iat" p = None → js_get "exp" p = None →
    t' < t + d →
    jwt_verify (jwt_sign p k d t) k t' = Some (stamp p t d);
  jwt_verify_expired : ∀ p k d t t',
    js_get "iat" p = None → js_get "exp" p = None →
    t + d ≤ t' →
    jwt_verify (jwt_sign p k d t) k t' = None;
  jwt_verify_shape : ∀ s k t p,
    jwt_verify s k t = Some p → jws_shape s = true;
  jwt_sign_shape : ∀ p k d t, jws_shape (jwt_sign p k d t) = true
}.

(** [bcrypt_hash password rounds salt] and [bcrypt_compare password hash]
    on strings; [bcryptjs_hash] and [bcryptjs_compare] below are the calls
    of [back.js], which reject any other argument. *)
Class Bcrypt : Type := {
  bcrypt_hash : string → nat → string → string;
  bcrypt_compare : string → string → bool;
  bcrypt_compare_hash : ∀ pw rounds salt,
    bcrypt_compare pw (bcrypt_hash pw rounds salt) = true;
  bcrypt_hash_nonempty : ∀ pw rounds salt, bcrypt_hash pw rounds salt ≠ ""
}.

(** ** Documents and collections *)

(** UserSchema: [username] required and unique, [password] required. *)
Module User.
Record Doc : Type := mk {
  _id : ObjectId;
  username : string;
  password : string
}.
End User.

(** TaskSchema: [text] required, [completed] defaults to false, [userId]
    an ObjectId that may be missing. *)
Module Task.
Record Doc : Type := mk {
  _id : ObjectId;
  text : string;
  completed : bool;
  userId : option ObjectId
}.
End Task.

#[global] Instance User_eq_dec : EqDecision User.Doc.
Proof. solve_decision. Defined.
#[global] Instance Task_eq_dec : EqDecision Task.Doc.
Proof. solve_decision. Defined.

(** The database: both collections in insertion order. *)
Record Db : Type := mkDb {
  Users : list User.Doc;
  Tasks : list Task.Doc
}.

(** What the store, Mongoose and bcryptjs throw: the server's error with
    its code, Mongoose's validation and cast errors, Mongoose's error for
    an operation that never reached the server, and the error of
    bcryptjs for an argument that is not a string. *)
Inductive Exn : Type :=
  | MongoServerError (code : Z)
  | ValidationError
  | CastError
  | MongooseError
  | IllegalArguments.

(** [err.code]. *)
Definition err_code (e : Exn) : option Z :=
  match e with
  | MongoServerError c => Some c
  | _ => None
  end.

(** ** Responses *)

Inductive Body : Type :=
  | JsonError (error : string)
  | JsonMessage (message : string)
  | JsonToken (token : string)
  | JsonTasks (tasks : list Task.Doc)
  | JsonTask (task : Task.Doc)
  | PlainText (t : string).

Record Response : Type := mkResponse {
  status : Z;
  body : Body
}.

(** The three 401 responses of [back.js]. *)
Definition no_token : Response :=
  mkResponse 401 (JsonError "Access denied. No token provided.").
Definition invalid_token : Response :=
  mkResponse 401 (JsonError "Invalid token").
Definition invalid_credentials : Response :=
  mkResponse 401 (JsonError "Invalid username or password").

(** ** Store computations

    A computation reads and writes the state of the store, [Σ], and
    either returns or throws; a throw leaves the store as the failed call
    left it. *)
Definition M (Σ A : Type) : Type := Σ → Σ * (Exn + A).

#[global] Instance M_ret {Σ} : MRet (M Σ) := λ A a σ, (σ, inr a).
#[global] Instance M_bind {Σ} : MBind (M Σ) := λ A B f m σ,
  match m σ with
  | (σ', inr a) => f a σ'
  | (σ', inl e) => (σ', inl e)
  end.

(** [throw e]. *)
Definition throw {Σ A} (e : Exn) : M Σ A := λ σ, (σ, inl e).

(** [try { m } catch (err) { h err }]. *)
Definition try_catch {Σ A} (m : M Σ A) (h : Exn → M Σ A) : M Σ A :=
  λ σ, match m σ with
       | (σ', inl e) => h e σ'
       | r => r
       end.

Notation "'try' m 'catch' e '⇒' h" := (try_catch m (λ e, h))
  (at level 10, e name, m at level 200, h at level 200).

(** A handler has responded when its computation returns. *)
Abbreviation Handler Σ := (M Σ Response).

(** [res.status(c).json(b)]. *)
Definition respond {Σ} (c : Z) (b : Body) : Handler Σ :=
  mret (mkResponse c b).

(** [await bcrypt.hash(s, rounds)] and [await bcrypt.compare(s, hash)]:
    bcryptjs rejects an argument that is not a string. *)
Definition bcryptjs_hash `{!Bcrypt} {Σ} (s : option JsVal) (rounds : nat)
    (salt : string) : M Σ string :=
  match s with
  | Some (JStr s) => mret (bcrypt_hash s rounds salt)
  | _ => throw IllegalArguments
  end.

Definition bcryptjs_compare `{!Bcrypt} {Σ} (s : option JsVal) (hash : string) :
    M Σ bool :=
  match s with
  | Some (JStr s) => mret (bcrypt_compare s hash)
  | _ => throw IllegalArguments
  end.

(** ** Mongoose models *)

(** Mongoose's cast of a value given for an ObjectId path, in a document
    or in a query filter: [undefined] and [null] are left alone, anything
    else is cast or raises CastError. *)
Definition cast_path `{!ObjectIdCodec} (v : option JsVal) : Exn + option ObjectId :=
  match v with
  | None | Some JNull => inr None
  | Some v => match castObjectId v with
              | Some i => inr (Some i)
              | None => inl CastError
              end
  end.

(** A document built by [new Model({...})] and not yet saved: its fields
    after casting, and whether a path failed to cast (the error is kept on
    the document and raised by [save]). *)
Record Unsaved (A : Type) : Type := mkUnsaved {
  fields : A;
  cast_failed : bool
}.
Arguments mkUnsaved {A} _ _.
Arguments fields {A} _.
Arguments cast_failed {A} _.

(** [new User({ username, password })] with string fields. *)
Definition new_User (_id : ObjectId) (username password : string) : Unsaved User.Doc :=
  mkUnsaved (User.mk _id username password) false.

(** [new Task({ text, userId })]: [completed] takes its default. *)
Definition new_Task `{!ObjectIdCodec} (_id : ObjectId) (text : string)
    (userId : option JsVal) : Unsaved Task.Doc :=
  match cast_path userId with
  | inr owner => mkUnsaved (Task.mk _id text false owner) false
  | inl _ => mkUnsaved (Task.mk _id text false None) true
  end.

(** The filter [{ userId: o }]: an ObjectId matches the documents that
    hold it, [null] and [undefined] match those where the path is missing. *)
Definition owned_by (o : option ObjectId) (t : Task.Doc) : Prop :=
  Task.userId t = o.

#[global] Instance owned_by_dec (o : option ObjectId) (t : Task.Doc) :
  Decision (owned_by o t).
Proof. unfold owned_by. apply _. Defined.

(** The operations of the models [User] and [Task] that [back.js] calls,
    on a store whose state is [Σ]:
    [newUser.save()], [User.findOne({ username })], [newTask.save()],
    [Task.find({ userId })], [Task.findOneAndDelete({ _id, userId })]. *)
Class Store (Σ : Type) : Type := {
  User_save : Unsaved User.Doc → M Σ ();
  User_findOne : string → M Σ (option User.Doc);
  Task_save : Unsaved Task.Doc → M Σ ();
  Task_find : option JsVal → M Σ (list Task.Doc);
  Task_findOneAndDelete : string → option JsVal → M Σ (option Task.Doc)
}.

(** *** The operations on a database that answers *)
Module OnDb.

(** [newUser.save()]: schema validation (both paths required, so not
    empty), then the insert, which the unique indexes on [_id] and on
    [username] refuse with error code 11000. *)
Definition User_save (d : Unsaved User.Doc) : M Db () := λ db,
  let u := fields d in
  if cast_failed d || bool_decide (User.username u = "" ∨ User.password u = "")
  then (db, inl ValidationError)
  else if bool_decide (User._id u ∈ (User._id <$> Users db)
                      ∨ User.username u ∈ (User.username <$> Users db))
  then (db, inl (MongoServerError 11000))
  else (mkDb (Users db ++ [u]) (Tasks db), inr ()).

(** [newTask.save()]: [text] is required; [_id] is unique. *)
Definition Task_save (d : Unsaved Task.Doc) : M Db () := λ db,
  let t := fields d in
  if cast_failed d || bool_decide (Task.text t = "")
  then (db, inl ValidationError)
  else if bool_decide (Task._id t ∈ (Task._id <$> Tasks db))
  then (db, inl (MongoServerError 11000))
  else (mkDb (Users db) (Tasks db ++ [t]), inr ()).

(** [User.findOne({ username })]. *)
Definition User_findOne (name : string) : M Db (option User.Doc) := λ db,
  (db, inr (snd <$> list_find (λ u, User.username u = name) (Users db))).

(** [Task.find({ userId })]. *)
Definition Task_find `{!ObjectIdCodec} (owner : option JsVal) :
    M Db (list Task.Doc) := λ db,
  match cast_path owner with
  | inl e => (db, inl e)
  | inr o => (db, inr (filter (owned_by o) (Tasks db)))
  end.

(** [Task.findOneAndDelete({ _id, userId })]: the first document that
    matches both conditions is removed and returned, [None] for [null]. *)
Definition Task_findOneAndDelete `{!ObjectIdCodec} (_id : string)
    (owner : option JsVal) : M Db (option Task.Doc) := λ db,
  match cast_path (Some (JStr _id)), cast_path owner with
  | inr i, inr o =>
      match list_find (λ t, Some (Task._id t) = i ∧ owned_by o t) (Tasks db) with
      | Some (n, t) => (mkDb (Users db) (delete n (Tasks db)), inr (Some t))
      | None => (db, inr None)
      end
  | inl e, _ | _, inl e => (db, inl e)
  end.

End OnDb.

#[global] Instance Db_store `{!ObjectIdCodec} : Store Db | 0 := {|
  User_save := OnDb.User_save;
  User_findOne := OnDb.User_findOne;
  Task_save := OnDb.Task_save;
  Task_find := OnDb.Task_find;
  Task_findOneAndDelete := OnDb.Task_findOneAndDelete
|}.

(** *** The operations on a database that may be out of reach

    The state is the database, whether Mongoose is connected to it, and
    the operations called so far, oldest first. *)
Inductive Op : Type :=
  | Op_User_save (d : User.Doc)
  | Op_User_findOne (name : string)
  | Op_Task_save (d : Task.Doc)
  | Op_Task_find (owner : option JsVal)
  | Op_Task_findOneAndDelete (_id : string) (owner : option JsVal).

Record World : Type := mkWorld {
  world_db : Db;
  connected : bool;
  operations : list Op
}.

Module OnWorld.

(** An operation is noted; connected, it is the operation on the
    database; not connected, what Mongoose finds itself (a document that
    does not validate, a filter that does not cast) is thrown as before,
    and anything that needs the server ends in Mongoose's own error,
    with the database as it was. *)
Definition call {A} (o : Op) (m : M Db A) : M World A := λ w,
  let ops := operations w ++ [o] in
  match m (world_db w) with
  | (db', r) =>
      if connected w then (mkWorld db' true ops, r)
      else match r with
           | inl ValidationError => (mkWorld (world_db w) false ops, inl ValidationError)
           | inl CastError => (mkWorld (world_db w) false ops, inl CastError)
           | _ => (mkWorld (world_db w) false ops, inl MongooseError)
           end
  end.

End OnWorld.

#[global] Instance World_store `{!ObjectIdCodec} : Store World | 10 := {|
  User_save d := OnWorld.call (Op_User_save (fields d)) (OnDb.User_save d);
  User_findOne name := OnWorld.call (Op_User_findOne name) (OnDb.User_findOne name);
  Task_save d := OnWorld.call (Op_Task_save (fields d)) (OnDb.Task_save d);
  Task_find owner := OnWorld.call (Op_Task_find owner) (OnDb.Task_find owner);
  Task_findOneAndDelete _id owner :=
    OnWorld.call (Op_Task_findOneAndDelete _id owner)
      (OnDb.Task_findOneAndDelete _id owner)
|}.

(** ** The application *)

(** What a request takes from outside the program: the clock in seconds,
    the ObjectId generated for a new document, and the bcrypt salt. *)
Record Env : Type := mkEnv {
  now : Z;
  newId : ObjectId;
  salt : string
}.

(** The parts of [req] the routes read; [req_userId] is the property the
    middleware sets. The password is whatever JSON scalar the body holds:
    it is handed to bcryptjs, which refuses what is not a string. *)
Record Request : Type := mkRequest {
  authorization : option string;
  params_id : string;
  body_username : option string;
  body_password : option JsVal;
  body_text : option string;
  req_userId : option JsVal
}.

Definition set_userId (req : Request) (v : option JsVal) : Request :=
  mkRequest (authorization req) (params_id req) (body_username req)
    (body_password req) (body_text req) v.

Inductive Route : Type :=
  | POST_register
  | POST_login
  | GET_tasks
  | POST_tasks
  | DELETE_tasks_id
  | GET_root.

(** The routes registered with the [authenticate] middleware. *)
Definition uses_authenticate (r : Route) : bool :=
  match r with
  | GET_tasks | POST_tasks | DELETE_tasks_id => true
  | POST_register | POST_login | GET_root => false
  end.

(** What a middleware does with a request. *)
Inductive Outcome : Type :=
  | Responded (resp : Response)
  | Next (req : Request).

Section App.
Context {codec : ObjectIdCodec} {jwt : Jwt} {bcrypt : Bcrypt}.
Context {Σ : Type} {store : Store Σ}.

(** [process.env.SECRET_KEY]. *)
Variable env_SECRET_KEY : option string.

(** [process.env.SECRET_KEY || "your_secret_key"]. *)
Definition SECRET_KEY : string :=
  if js_not env_SECRET_KEY then "your_secret_key" else js_str env_SECRET_KEY.

(** [{ expiresIn: "1h" }], in seconds. *)
Definition expiresIn : Z := 3600.

(** [app.post("/register")]. *)
Definition post_register (e : Env) (req : Request) : Handler Σ :=
  let username := body_username req in
  let password := body_password req in
  if js_not username || js_not_val password
  then respond 400 (JsonError "Username and password are required")
  else
    try
      (hashedPassword ← bcryptjs_hash password 10 (salt e);
       let newUser := new_User (newId e) (js_str username) hashedPassword in
       (User_save newUser;;
        respond 201 (JsonMessage "User registered successfully")))
    catch err ⇒
      if bool_decide (err_code err = Some 11000)
      then respond 400 (JsonError "Username already exists")
      else respond 500 (JsonError "Failed to register user").

(** The payload [{ userId: user._id }] as [jwt.sign] serialises it. *)
Definition login_payload (user : User.Doc) : JsObject :=
  [("userId", JStr (toHexString (User._id user)))].

(** [app.post("/login")]. *)
Definition post_login (e : Env) (req : Request) : Handler Σ :=
  let username := body_username req in
  let password := body_password req in
  if js_not username || js_not_val password
  then respond 400 (JsonError "Username and password are required")
  else
    try
      (user ← User_findOne (js_str username);
       match user with
       | None => respond 401 (JsonError "Invalid username or password")
       | Some user =>
           matches ← bcryptjs_compare password (User.password user);
           if negb matches
           then respond 401 (JsonError "Invalid username or password")
           else
             let token :=
               jwt_sign (login_payload user) SECRET_KEY expiresIn (now e) in
             respond 200 (JsonToken token)
       end)
    catch err ⇒ respond 500 (JsonError "Failed to log in").

(** The middleware [authenticate]: it either responds itself or sets
    [req.userId] and calls [next()]. It does not touch the store. *)
Definition authenticate (e : Env) (req : Request) : Outcome :=
  let token := authorization req in
  if js_not token
  then Responded (mkResponse 401 (JsonError "Access denied. No token provided."))
  else
    match jwt_verify (js_str token) SECRET_KEY (now e) with
    | Some decoded => Next (set_userId req (js_get "userId" decoded))
    | None => Responded (mkResponse 401 (JsonError "Invalid token"))
    end.

(** [app.get("/tasks")], after the middleware. *)
Definition get_tasks (req : Request) : Handler Σ :=
  try
    (tasks ← Task_find (req_userId req);
     respond 200 (JsonTasks tasks))
  catch err ⇒ respond 500 (JsonError "Failed to fetch tasks").

(** [app.post("/tasks")], after the middleware. *)
Definition post_tasks (e : Env) (req : Request) : Handler Σ :=
  let text := body_text req in
  if js_not text
  then respond 400 (JsonError "Task text is required")
  else
    try
      (let newTask := new_Task (newId e) (js_str text) (req_userId req) in
       Task_save newTask;;
       respond 201 (JsonTask (fields newTask)))
    catch err ⇒ respond 500 (JsonError "Failed to add task").

(** [app.delete("/tasks/:id")], after the middleware. *)
Definition delete_tasks_id (req : Request) : Handler Σ :=
  try
    (deletedTask ← Task_findOneAndDelete (params_id req) (req_userId req);
     match deletedTask with
     | None => respond 404 (JsonError "Task not found")
     | Some _ => respond 200 (JsonMessage "Task deleted successfully")
     end)
  catch err ⇒ respond 500 (JsonError "Failed to delete task").

(** [app.get("/")]. *)
Definition get_root : Handler Σ :=
  mret (mkResponse 200 (PlainText "Server is running successfully!")).

(** The routing table: the handler registered for each route. *)
Definition handler (r : Route) (e : Env) (req : Request) : Handler Σ :=
  match r with
  | POST_register => post_register e req
  | POST_login => post_login e req
  | GET_tasks => get_tasks req
  | POST_tasks => post_tasks e req
  | DELETE_tasks_id => delete_tasks_id req
  | GET_root => get_root
  end.

(** A request to a route: through [authenticate] where the route is
    registered with it, then the handler. *)
Definition app (r : Route) (e : Env) (req : Request) : Handler Σ :=
  if uses_authenticate r
  then match authenticate e req with
       | Responded resp => mret resp
       | Next req' => handler r e req'
       end
  else handler r e req.

End App.

(** ** The browser functions

    [registerUser], [loginUser] and [fetchTasks] read the two input
    elements and [localStorage], call the server with [fetch], and report
    with [alert] and [console.log]. The page is the record below; a call
    of [fetch] is a request served by [app] on the store. *)
Record Browser : Type := mkBrowser {
  input_username : string;
  input_password : string;
  localStorage_token : option string;
  alerts : list (option string);
  console : list Body
}.

(** [alert(msg)]; [None] is [undefined]. *)
Definition alert (msg : option string) (b : Browser) : Browser :=
  mkBrowser (input_username b) (input_password b) (localStorage_token b)
    (alerts b ++ [msg]) (console b).

(** [console.log(data)]. *)
Definition console_log (data : Body) (b : Browser) : Browser :=
  mkBrowser (input_username b) (input_password b) (localStorage_token b)
    (alerts b) (console b ++ [data]).

(** [localStorage.setItem("token", v)]. *)
Definition localStorage_setItem_token (v : string) (b : Browser) : Browser :=
  mkBrowser (input_username b) (input_password b) (Some v)
    (alerts b) (console b).

(** [await response.json()]: it rejects on a body that is not JSON. *)
Definition response_json (response : Response) : option Body :=
  match body response with
  | PlainText _ => None
  | data => Some data
  end.

(** [data.message], [data.error] and [data.token]. *)
Definition data_message (data : Body) : option string :=
  match data with JsonMessage m => Some m | _ => None end.
Definition data_error (data : Body) : option string :=
  match data with JsonError m => Some m | _ => None end.
Definition data_token (data : Body) : option string :=
  match data with JsonToken t => Some t | _ => None end.

(** [a || b]. *)
Definition js_or (a b : option string) : option string :=
  if js_not a then b else a.

(** [`${v}`], where [v] is a string or [null]. *)
Definition template (v : option string) : string := default "null" v.

Section Client.
Context {codec : ObjectIdCodec} {jwt : Jwt} {bcrypt : Bcrypt}.
Context {Σ : Type} {store : Store Σ}.

(** [process.env.SECRET_KEY] of the server. *)
Variable env_SECRET_KEY : option string.

(** [fetch] to a route of the server, whose clock, ObjectId generator and
    salt for this request are [se]; the promise rejects when no response
    comes back. *)
Definition fetch (r : Route) (se : Env) (req : Request) : M Σ Response :=
  app env_SECRET_KEY r se req.

(** [registerUser()]. *)
Definition registerUser (se : Env) (w : Browser * Σ) : Browser * Σ :=
  let '(b, db) := w in
  let username := input_username b in
  let password := input_password b in
  match fetch POST_register se
          (mkRequest None "" (Some username) (Some password) None None) db with
  | (db', inr response) =>
      match response_json response with
      | Some data => (alert (js_or (data_message data) (data_error data)) b, db')
      | None => (b, db')
      end
  | (db', inl _) => (b, db')
  end.

(** [loginUser()]. *)
Definition loginUser (se : Env) (w : Browser * Σ) : Browser * Σ :=
  let '(b, db) := w in
  let username := input_username b in
  let password := input_password b in
  match fetch POST_login se
          (mkRequest None "" (Some username) (Some password) None None) db with
  | (db', inr response) =>
      match response_json response with
      | Some data =>
          if negb (js_not (data_token data))
          then (alert (Some "Login successful!")
                  (localStorage_setItem_token (js_str (data_token data)) b), db')
          else (alert (data_error data) b, db')
      | None => (b, db')
      end
  | (db', inl _) => (b, db')
  end.

(** [fetchTasks()]. *)
Definition fetchTasks (se : Env) (w : Browser * Σ) : Browser * Σ :=
  let '(b, db) := w in
  let token := localStorage_token b in
  match fetch GET_tasks se
          (mkRequest (Some ("Bearer " +:+ template token)) "" None None None None)
          db with
  | (db', inr response) =>
      match response_json response with
      | Some tasks => (console_log tasks b, db')
      | None => (b, db')
      end
  | (db', inl _) => (b, db')
  end.

End Client.

(** ** Sequences of requests *)

(** One request to the server. *)
Record Call : Type := mkCall {
  call_route : Route;
  call_env : Env;
  call_req : Request
}.

Section Server.
Context {codec : ObjectIdCodec} {jwt : Jwt} {bcrypt : Bcrypt}.
Variable env_SECRET_KEY : option string.

(** The request carries a token that verifies now and whose [userId]
    casts to [o]: an ObjectId, or nothing when the payload has none. *)
Definition authenticated_as (e : Env) (req : Request) (o : option ObjectId) : Prop :=
  ∃ tok decoded,
    authorization req = Some tok
    ∧ jwt_verify tok (SECRET_KEY env_SECRET_KEY) (now e) = Some decoded
    ∧ cast_path (js_get "userId" decoded) = inr o.

(** The store after a request. *)
Definition serve (db : Db) (c : Call) : Db :=
  fst (app env_SECRET_KEY (call_route c) (call_env c) (call_req c) db).

(** The store after a sequence of requests, served one after the other. *)
Definition run (calls : list Call) (db : Db) : Db := foldl serve db calls.

End Server.

(** ** Predicates of the properties *)

(** What the schemas require of stored documents, and what the routes
    leave [completed] at. *)
Definition documents_valid (db : Db) : Prop :=
  Forall (λ u, User.username u ≠ "" ∧ User.password u ≠ "") (Users db)
  ∧ Forall (λ t, Task.text t ≠ "" ∧ Task.completed t = false) (Tasks db).

(** A task as the round-trip scenario creates it. *)
Definition buy_milk (t : Task.Doc) : Prop :=
  Task.text t = "buy milk" ∧ Task.completed t = false.

#[global] Instance buy_milk_dec (t : Task.Doc) : Decision (buy_milk t).
Proof. unfold buy_milk. apply _. Defined.

(** The unique indexes of the two collections. *)
Definition indexes_hold (db : Db) : Prop :=
  NoDup (User._id <$> Users db)
  ∧ NoDup (User.username <$> Users db)
  ∧ NoDup (Task._id <$> Tasks db).

(** ** An executable instance of the library interfaces

    Enough of [jsonwebtoken], [bcryptjs] and the ObjectId codec to run the
    application on concrete requests: the token is the payload, the key
    and the two times written in binary (nothing is hidden or hard to
    forge, which no property below relies on). *)
Module Exec.

Fixpoint pos_to_bits (p : positive) : string :=
  match p with
  | xH => ""
  | xO p => String "0"%char (pos_to_bits p)
  | xI p => String "1"%char (pos_to_bits p)
  end.

Fixpoint bits_to_pos (s : string) : option positive :=
  match s with
  | EmptyString => Some xH
  | String c s' =>
      p ← bits_to_pos s';
      if decide (c = "0"%char) then Some (xO p)
      else if decide (c = "1"%char) then Some (xI p)
      else None
  end.

Definition sign (p : JsObject) (k : string) (d t : Z) : string :=
  String "j"%char (pos_to_bits (encode (p, k, t, d))).

Definition verify (s k : string) (t' : Z) : option JsObject :=
  match s with
  | String "j"%char bits =>
      n ← bits_to_pos bits;
      '(p, k', t, d) ← decode n;
      if decide (k' = k ∧ t' < t + d) then Some (stamp p t d) else None
  | _ => None
  end.

Definition hex (i : ObjectId) : string := pos_to_bits (N.succ_pos i).

Definition cast (v : JsVal) : option ObjectId :=
  match v with
  | JStr s => Pos.pred_N <$> bits_to_pos s
  | _ => None
  end.

Definition hash (pw : string) (rounds : nat) (salt : string) : string :=
  "$2a$" +:+ pw.

Definition compare (pw h : string) : bool := bool_decide (h = "$2a$" +:+ pw).

End Exec.

(** ** A concrete run

    Two registered users, the tokens login issues them under the default
    secret, and the requests of the scenarios below. *)
Module Scenario.

Definition secret : string := "your_secret_key".

Definition alice : User.Doc := User.mk 1 "alice" (Exec.hash "pw1" 10 "s1").
Definition bob : User.Doc := User.mk 2 "bob" (Exec.hash "pw2" 10 "s2").

(** Bob's task and two "buy milk" tasks of Alice. *)
Definition bobs_task : Task.Doc := Task.mk 20 "water plants" false (Some 2%N).
Definition milk1 : Task.Doc := Task.mk 10 "buy milk" false (Some 1%N).
Definition milk2 : Task.Doc := Task.mk 11 "buy milk" false (Some 1%N).

Definition db_users : Db := mkDb [alice; bob] [].
Definition db_bob : Db := mkDb [alice; bob] [bobs_task].
Definition db_milk1 : Db := mkDb [alice; bob] [milk1].
Definition db_milk2 : Db := mkDb [alice; bob] [milk1; milk2].

(** Alice's and Bob's tasks in one store. *)
Definition db_both : Db := mkDb [alice; bob] [milk1; bobs_task].

(** A request with the given header, route parameter and body fields. *)
Definition request (auth : option string) (id : string)
    (username password text : option string) : Request :=
  mkRequest auth id username (JStr <$> password) text None.

(** Alice logs in at second 1000. *)
Definition at_login : Env := mkEnv 1000 0 "".
Definition login_alice : Request :=
  request None "" (Some "alice") (Some "pw1") None.
Definition tokA : string := Exec.sign [("userId", JStr (Exec.hex 1))] secret 3600 1000.

(** A token signed with the server secret whose payload is empty. *)
Definition tok_anonymous : string := Exec.sign [] secret 3600 1000.

(** Half an hour and one hour after the login; [later id] generates
    [id] for a new document. *)
Definition later (id : ObjectId) : Env := mkEnv 2800 id "".
Definition too_late : Env := mkEnv 4600 0 "".

(** Requests carrying Alice's token. *)
Definition as_alice (id : string) (text : option string) : Request :=
  request (Some tokA) id None None text.

End Scenario.

(** * Properties *)

(** The operations of the store, where the store is the database with
    its connection state and the operations called. *)
Ltac on_world :=
  cbn [User_save User_findOne Task_save Task_find Task_findOneAndDelete
       World_store] in *;
  unfold OnWorld.call in *.

(** The operations of the store, where the store is the database. *)
Ltac on_db :=
  cbn [User_save User_findOne Task_save Task_find Task_findOneAndDelete
       Db_store] in *;
  unfold OnDb.User_save, OnDb.User_findOne, OnDb.Task_save, OnDb.Task_find,
    OnDb.Task_findOneAndDelete in *.

(** ** The executable instance satisfies the interfaces *)

Lemma bits_to_pos_to_bits (p : positive) :
  Exec.bits_to_pos (Exec.pos_to_bits p) = Some p.
Proof. induction p as [p IH|p IH|]; simpl; rewrite ?IH; done. Qed.

Lemma jws_chars_pos_to_bits (p : positive) :
  jws_chars (Exec.pos_to_bits p) = true.
Proof. induction p as [p IH|p IH|]; simpl; rewrite ?IH; done. Qed.

Lemma exec_verify_sign (p : JsObject) (k : string) (d t t' : Z) :
  t' < t + d → Exec.verify (Exec.sign p k d t) k t' = Some (stamp p t d).
Proof.
  intros Hlt. unfold Exec.verify, Exec.sign.
  rewrite bits_to_pos_to_bits. simpl. rewrite decode_encode. simpl.
  rewrite decide_True; [done | split; [done | lia]].
Qed.

Lemma exec_verify_expired (p : JsObject) (k : string) (d t t' : Z) :
  t + d ≤ t' → Exec.verify (Exec.sign p k d t) k t' = None.
Proof.
  intros Hle. unfold Exec.verify, Exec.sign.
  rewrite bits_to_pos_to_bits. simpl. rewrite decode_encode. simpl.
  rewrite decide_False; [done | intros [_ ?]; lia].
Qed.

Lemma exec_bits_shape (s : string) (n : positive) :
  Exec.bits_to_pos s = Some n → jws_chars s = true.
Proof.
  revert n. induction s as [|c s IH]; intros n; simpl; [done|].
  destruct (Exec.bits_to_pos s) as [q|]; simpl; [|done].
  rewrite (IH q eq_refl).
  repeat case_decide; subst; done.
Qed.

Lemma exec_verify_shape (s k : string) (t : Z) (p : JsObject) :
  Exec.verify s k t = Some p → jws_shape s = true.
Proof.
  unfold Exec.verify. destruct s as [|c bits]; [done|].
  destruct (decide (c = "j"%char)) as [->|Hc].
  - destruct (Exec.bits_to_pos bits) as [n|] eqn:Hbits; simpl; [|done].
    intros _. unfold jws_shape. simpl. by rewrite (exec_bits_shape _ _ Hbits).
  - intros Hv. exfalso. apply Hc.
    destruct c as [[] [] [] [] [] [] [] []]; done.
Qed.

Lemma exec_sign_shape (p : JsObject) (k : string) (d t : Z) :
  jws_shape (Exec.sign p k d t) = true.
Proof. unfold jws_shape, Exec.sign. simpl. apply jws_chars_pos_to_bits. Qed.

Lemma exec_cast_hex (i : ObjectId) : Exec.cast (JStr (Exec.hex i)) = Some i.
Proof.
  unfold Exec.cast, Exec.hex. rewrite bits_to_pos_to_bits. simpl.
  by rewrite N.pos_pred_succ.
Qed.

Lemma exec_compare_hash (pw : string) (rounds : nat) (salt : string) :
  Exec.compare pw (Exec.hash pw rounds salt) = true.
Proof. unfold Exec.compare, Exec.hash. by apply bool_decide_eq_true. Qed.

Definition exec_codec : ObjectIdCodec :=
  {| toHexString := Exec.hex;
     castObjectId := Exec.cast;
     castObjectId_toHexString := exec_cast_hex |}.

Definition exec_jwt : Jwt :=
  {| jwt_sign := Exec.sign;
     jwt_verify := Exec.verify;
     jwt_verify_sign := λ p k d t t' _ _, exec_verify_sign p k d t t';
     jwt_verify_expired := λ p k d t t' _ _, exec_verify_expired p k d t t';
     jwt_verify_shape := exec_verify_shape;
     jwt_sign_shape := exec_sign_shape |}.

Lemma exec_hash_nonempty (pw : string) (rounds : nat) (salt : string) :
  Exec.hash pw rounds salt ≠ "".
Proof. done. Qed.

Definition exec_bcrypt : Bcrypt :=
  {| bcrypt_hash := Exec.hash;
     bcrypt_compare := Exec.compare;
     bcrypt_compare_hash := exec_compare_hash;
     bcrypt_hash_nonempty := exec_hash_nonempty |}.

(** ** The application *)

Section Properties.
Context {codec : ObjectIdCodec} {jwt : Jwt} {bcrypt : Bcrypt}.

(** [process.env.SECRET_KEY]. *)
Variable key : option string.

Abbreviation SECRET := (SECRET_KEY key).

(** *** The middleware *)

Lemma js_not_false (v : option string) :
  js_not v = false ↔ ∃ s, v = Some s ∧ s ≠ "".
Proof.
  destruct v as [s|]; simpl.
  - rewrite bool_decide_eq_false. split.
    + intros Hs. by exists s.
    + by intros (s' & [= <-] & Hs).
  - split; [done | by intros (s & [=] & _)].
Qed.

Lemma js_not_true (v : option string) :
  js_not v = true ↔ v = None ∨ v = Some "".
Proof.
  destruct v as [s|]; simpl.
  - rewrite bool_decide_eq_true. split.
    + intros ->. by right.
    + by intros [[=] | [= ->]].
  - split; [by left | done].
Qed.

Lemma jwt_verify_nonempty (tok k : string) (t : Z) (p : JsObject) :
  jwt_verify tok k t = Some p → tok ≠ "".
Proof. intros Hv ->. by apply jwt_verify_shape in Hv. Qed.

Lemma authenticate_no_token (e : Env) (req : Request) :
  js_not (authorization req) = true →
  authenticate key e req = Responded no_token.
Proof. intros Hn. unfold authenticate. by rewrite Hn. Qed.

Lemma authenticate_invalid (e : Env) (req : Request) (tok : string) :
  authorization req = Some tok → tok ≠ "" →
  jwt_verify tok SECRET (now e) = None →
  authenticate key e req = Responded invalid_token.
Proof.
  intros Ha Hne Hv. unfold authenticate. rewrite Ha. simpl.
  rewrite bool_decide_eq_false_2 by done. by rewrite Hv.
Qed.

Lemma authenticate_next (e : Env) (req : Request) (tok : string) (decoded : JsObject) :
  authorization req = Some tok →
  jwt_verify tok SECRET (now e) = Some decoded →
  authenticate key e req = Next (set_userId req (js_get "userId" decoded)).
Proof.
  intros Ha Hv. unfold authenticate. rewrite Ha. simpl.
  rewrite bool_decide_eq_false_2 by eauto using jwt_verify_nonempty.
  by rewrite Hv.
Qed.

Lemma app_protected (r : Route) (e : Env) (req : Request) (db : Db) :
  uses_authenticate r = true →
  app key r e req db =
    match authenticate key e req with
    | Responded resp => (db, inr resp)
    | Next req' => handler key r e req' db
    end.
Proof. intros Hr. unfold app. rewrite Hr. by destruct (authenticate key e req). Qed.

Lemma app_no_token (r : Route) (e : Env) (req : Request) (db : Db) :
  uses_authenticate r = true →
  js_not (authorization req) = true →
  app key r e req db = (db, inr no_token).
Proof.
  intros Hr Hn.
  by rewrite (app_protected _ _ _ _ Hr), (authenticate_no_token _ _ Hn).
Qed.

Lemma app_invalid_token (r : Route) (e : Env) (req : Request) (db : Db)
    (tok : string) :
  uses_authenticate r = true →
  authorization req = Some tok → tok ≠ "" →
  jwt_verify tok SECRET (now e) = None →
  app key r e req db = (db, inr invalid_token).
Proof.
  intros Hr Ha Hne Hv.
  by rewrite (app_protected _ _ _ _ Hr), (authenticate_invalid _ _ _ Ha Hne Hv).
Qed.

Lemma app_verified (r : Route) (e : Env) (req : Request) (db : Db)
    (tok : string) (decoded : JsObject) :
  uses_authenticate r = true →
  authorization req = Some tok →
  jwt_verify tok SECRET (now e) = Some decoded →
  app key r e req db =
    handler key r e (set_userId req (js_get "userId" decoded)) db.
Proof.
  intros Hr Ha Hv.
  by rewrite (app_protected _ _ _ _ Hr), (authenticate_next _ _ _ _ Ha Hv).
Qed.

(** C2. On a route registered with [authenticate]: a request without an
    Authorization header (or with an empty one) is answered 401 "Access
    denied. No token provided."; a request whose token [jwt.verify] refuses
    (bad signature or expired) is answered 401 "Invalid token"; in both
    cases the store is untouched and the route handler is not run. When
    the token verifies, the handler runs, on a request whose [userId] is
    the [userId] of the decoded payload, whatever it was before, and
    whose header, route parameter and body are those received. *)
Theorem credential_gate (r : Route) (e : Env) (req : Request) (db : Db) :
  uses_authenticate r = true →
  (authorization req = None ∨ authorization req = Some "" →
     app key r e req db = (db, inr no_token))
  ∧ (∀ tok, authorization req = Some tok → tok ≠ "" →
       jwt_verify tok SECRET (now e) = None →
       app key r e req db = (db, inr invalid_token))
  ∧ (∀ tok decoded, authorization req = Some tok →
       jwt_verify tok SECRET (now e) = Some decoded →
       ∃ req',
         app key r e req db = handler key r e req' db
         ∧ req_userId req' = js_get "userId" decoded
         ∧ authorization req' = authorization req
         ∧ params_id req' = params_id req
         ∧ body_username req' = body_username req
         ∧ body_password req' = body_password req
         ∧ body_text req' = body_text req).
Proof.
  intros Hr. split_and!.
  - intros Hn. apply app_no_token; [done|]. by apply js_not_true.
  - intros tok. by apply app_invalid_token.
  - intros tok decoded Ha Hv.
    exists (set_userId req (js_get "userId" decoded)).
    split; [by apply (app_verified r e req db tok decoded) | done].
Qed.

(** *** Login *)

(** A successful login found the user by name, matched the password, and
    answered with the payload above signed for one hour; it wrote nothing. *)
Lemma post_login_ok (e : Env) (req : Request) (db db' : Db) (tok : string) :
  post_login key e req db = (db', inr (mkResponse 200 (JsonToken tok))) →
  ∃ (name pw : string) n user,
    body_username req = Some name ∧ name ≠ "" ∧
    body_password req = Some pw ∧ pw ≠ "" ∧
    list_find (λ u, User.username u = name) (Users db) = Some (n, user) ∧
    bcrypt_compare pw (User.password user) = true ∧
    tok = jwt_sign (login_payload user) SECRET 3600 (now e) ∧
    db' = db.
Proof.
  unfold post_login.
  destruct (js_not (body_username req)) eqn:Hu; [done|].
  destruct (js_not_val (body_password req)) eqn:Hp; [done|].
  apply js_not_false in Hu as (name & Hname & Hne).
  rewrite Hname. simpl.
  unfold try_catch, mbind, M_bind, respond, mret, M_ret. on_db. simpl.
  destruct (list_find _ (Users db)) as [[n user]|] eqn:Hfind; simpl; [|done].
  destruct (body_password req) as [[| | |pw]|]; simpl; try done.
  apply bool_decide_eq_false in Hp.
  destruct (bcrypt_compare pw (User.password user)) eqn:Hcmp; simpl; [|done].
  intros [= <- <-]. by exists name, pw, n, user.
Qed.

(** What a token issued by login decodes to while it is valid. *)
Lemma login_token_valid (user : User.Doc) (t t' : Z) :
  t' < t + 3600 →
  jwt_verify (jwt_sign (login_payload user) SECRET 3600 t) SECRET t'
  = Some (stamp (login_payload user) t 3600).
Proof. intros Ht. by apply jwt_verify_sign. Qed.

Lemma login_token_expired (user : User.Doc) (t t' : Z) :
  t + 3600 ≤ t' →
  jwt_verify (jwt_sign (login_payload user) SECRET 3600 t) SECRET t' = None.
Proof. intros Ht. by apply jwt_verify_expired. Qed.

Lemma login_token_nonempty (p : JsObject) (k : string) (d t : Z) :
  jwt_sign p k d t ≠ "".
Proof.
  intros Heq. pose proof (jwt_sign_shape p k d t) as Hs.
  by rewrite Heq in Hs.
Qed.

Lemma cast_path_hex (i : ObjectId) :
  cast_path (Some (JStr (toHexString i))) = inr (Some i).
Proof. unfold cast_path. by rewrite castObjectId_toHexString. Qed.

(** C3. A token issued by login at time [t0] is accepted by the
    middleware of every protected route strictly before [t0 + 3600]
    seconds, with the user's id as [req.userId], and from [t0 + 3600] on
    every protected route answers it with 401 "Invalid token", whatever
    the store holds, although the token is the very string login signed
    with the server secret. *)
Theorem token_expiry (e0 : Env) (login_req : Request) (db0 db0' : Db) (tok : string) :
  post_login key e0 login_req db0 = (db0', inr (mkResponse 200 (JsonToken tok))) →
  ∃ user, user ∈ Users db0 ∧
    ∀ (r : Route) (e : Env) (req : Request) (db : Db),
      uses_authenticate r = true →
      authorization req = Some tok →
      (now e0 + 3600 ≤ now e →
         app key r e req db = (db, inr invalid_token))
      ∧ (now e < now e0 + 3600 →
         app key r e req db =
           handler key r e
             (set_userId req (Some (JStr (toHexString (User._id user))))) db).
Proof.
  intros Hlogin.
  apply post_login_ok in Hlogin
    as (name & pw & n & user & _ & _ & _ & _ & Hfind & _ & -> & _).
  exists user. split.
  { apply list_find_Some in Hfind as (Hn & _ & _).
    by eapply list_elem_of_lookup_2. }
  intros r e req db Hr Ha.
  split; intros Ht.
  - apply (app_invalid_token _ _ _ _ _ Hr Ha); [apply login_token_nonempty|].
    by apply login_token_expired.
  - by rewrite (app_verified _ _ _ _ _ _ Hr Ha (login_token_valid user _ _ Ht)).
Qed.

(** C4. With the username and the password non-empty strings, a login
    for a username that is not in the store and a login for a stored
    username with a password the hash comparison refuses get the same
    response, 401 "Invalid username or password", and the store is
    untouched. *)
Theorem login_failure_uniform (e : Env) (req : Request) (db : Db) (name pw : string) :
  body_username req = Some name → name ≠ "" →
  body_password req = Some pw → pw ≠ "" →
  (name ∉ (User.username <$> Users db))
  ∨ (∃ n user,
       list_find (λ u, User.username u = name) (Users db) = Some (n, user)
       ∧ bcrypt_compare pw (User.password user) = false) →
  post_login key e req db = (db, inr invalid_credentials).
Proof.
  intros Hname Hne Hpw Hpe Hcase. unfold post_login.
  rewrite Hname, Hpw. simpl.
  rewrite !bool_decide_eq_false_2 by done. simpl.
  unfold try_catch, mbind, M_bind, respond, mret, M_ret. on_db. simpl.
  destruct Hcase as [Habsent | (n & user & Hfind & Hcmp)].
  - destruct (list_find _ (Users db)) as [[n user]|] eqn:Hfind; simpl; [|done].
    exfalso. apply Habsent.
    apply list_find_Some in Hfind as (Hn & Hu & _).
    apply list_elem_of_fmap. exists user. split; [done|].
    by eapply list_elem_of_lookup_2.
  - rewrite Hfind. simpl. by rewrite Hcmp.
Qed.

(** *** The Authorization header is the token *)

Lemma bearer_not_jws (tok : string) : jws_shape ("Bearer " +:+ tok) = false.
Proof. done. Qed.

(** C8. The middleware hands the Authorization header to [jwt.verify]
    as it came: for a non-empty header the outcome is decided by
    [jwt_verify] on that very string. Nothing strips a "Bearer " prefix,
    so a header "Bearer <token>" is verified with the prefix in it and
    every protected route answers 401 "Invalid token", whatever <token>
    is. *)
Theorem literal_token_transport (e : Env) (req : Request) :
  (∀ raw, authorization req = Some raw → raw ≠ "" →
     authenticate key e req =
       match jwt_verify raw SECRET (now e) with
       | Some decoded => Next (set_userId req (js_get "userId" decoded))
       | None => Responded invalid_token
       end)
  ∧ (∀ tok, authorization req = Some ("Bearer " +:+ tok) →
       jwt_verify ("Bearer " +:+ tok) SECRET (now e) = None
       ∧ authenticate key e req = Responded invalid_token
       ∧ ∀ r db, uses_authenticate r = true →
           app key r e req db = (db, inr invalid_token)).
Proof.
  split.
  - intros raw Ha Hne.
    destruct (jwt_verify raw SECRET (now e)) as [decoded|] eqn:Hv.
    + by apply (authenticate_next _ _ raw).
    + by apply (authenticate_invalid _ _ raw).
  - intros tok Ha.
    assert (jwt_verify ("Bearer " +:+ tok) SECRET (now e) = None) as Hv.
    { destruct (jwt_verify _ _ _) as [p|] eqn:Hv; [|done].
      apply jwt_verify_shape in Hv. by rewrite bearer_not_jws in Hv. }
    assert (authenticate key e req = Responded invalid_token) as Hauth.
    { by apply (authenticate_invalid _ _ _ Ha). }
    split_and!; [done | done |].
    intros r db Hr. by rewrite (app_protected _ _ _ _ Hr), Hauth.
Qed.

(** *** Listing *)

Lemma get_tasks_ok (req : Request) (db : Db) (owner : option ObjectId) :
  cast_path (req_userId req) = inr owner →
  get_tasks req db =
    (db, inr (mkResponse 200
                (JsonTasks (filter (owned_by owner) (Tasks db))))).
Proof.
  intros Hc. unfold get_tasks, try_catch, mbind, M_bind. on_db.
  by rewrite Hc.
Qed.

(** C10. The middleware responds itself exactly when the header is
    absent or [jwt.verify] refuses the header's value; it looks at nothing
    else. In particular a token that verifies and whose payload has no
    [userId] is let through with [req.userId] undefined: every protected
    route runs its handler on that request, and GET /tasks answers 200
    with the tasks whose [userId] is missing. *)
Theorem gate_checks_verification_only (e : Env) (req : Request) :
  ((∃ resp, authenticate key e req = Responded resp)
     ↔ (authorization req = None
        ∨ ∃ tok, authorization req = Some tok
                 ∧ jwt_verify tok SECRET (now e) = None))
  ∧ (∀ tok decoded,
       authorization req = Some tok →
       jwt_verify tok SECRET (now e) = Some decoded →
       js_get "userId" decoded = None →
       authenticate key e req = Next (set_userId req None)
       ∧ (∀ r db, uses_authenticate r = true →
            app key r e req db = handler key r e (set_userId req None) db)
       ∧ (∀ db, app key GET_tasks e req db =
            (db, inr (mkResponse 200
               (JsonTasks (filter (owned_by None) (Tasks db))))))).
Proof.
  split.
  - split.
    + intros [resp Hresp].
      destruct (authorization req) as [tok|] eqn:Ha; [right | by left].
      exists tok. split; [done|].
      destruct (jwt_verify tok SECRET (now e)) as [decoded|] eqn:Hv; [|done].
      by rewrite (authenticate_next _ _ _ _ Ha Hv) in Hresp.
    + intros [Ha | (tok & Ha & Hv)].
      * exists no_token. apply authenticate_no_token. by rewrite Ha.
      * destruct (decide (tok = "")) as [-> | Hne].
        -- exists no_token. apply authenticate_no_token. by rewrite Ha.
        -- exists invalid_token. by apply (authenticate_invalid _ _ tok).
  - intros tok decoded Ha Hv Hnone.
    assert (authenticate key e req = Next (set_userId req None)) as Hauth.
    { rewrite <- Hnone. by apply (authenticate_next _ _ tok). }
    split_and!; [done | |].
    + intros r db Hr. by rewrite (app_protected _ _ _ _ Hr), Hauth.
    + intros db. rewrite (app_protected GET_tasks _ _ _ eq_refl), Hauth. simpl.
      by apply get_tasks_ok.
Qed.

(** *** Creating *)

Lemma post_tasks_no_text (e : Env) (req : Request) (db : Db) :
  js_not (body_text req) = true →
  post_tasks e req db =
    (db, inr (mkResponse 400 (JsonError "Task text is required"))).
Proof. intros Hn. unfold post_tasks. by rewrite Hn. Qed.

Lemma post_tasks_ok (e : Env) (req : Request) (db : Db) (txt : string)
    (owner : option ObjectId) :
  body_text req = Some txt → txt ≠ "" →
  cast_path (req_userId req) = inr owner →
  newId e ∉ (Task._id <$> Tasks db) →
  post_tasks e req db =
    (mkDb (Users db) (Tasks db ++ [Task.mk (newId e) txt false owner]),
     inr (mkResponse 201 (JsonTask (Task.mk (newId e) txt false owner)))).
Proof.
  intros Ht Hne Hc Hfresh. unfold post_tasks. rewrite Ht. simpl.
  rewrite bool_decide_eq_false_2 by done.
  unfold try_catch, mbind, M_bind, new_Task. on_db. rewrite Hc. simpl.
  rewrite !bool_decide_eq_false_2 by done. done.
Qed.

(** A 201 from the create handler: a task was appended to the collection,
    with the request's text, [completed] false, the owner [req.userId]
    casts to, and an [_id] no stored task had. *)
Lemma post_tasks_created (e : Env) (req : Request) (db db' : Db) (b : Body) :
  post_tasks e req db = (db', inr (mkResponse 201 b)) →
  ∃ txt owner,
    body_text req = Some txt ∧ txt ≠ "" ∧
    cast_path (req_userId req) = inr owner ∧
    (newId e ∉ (Task._id <$> Tasks db)) ∧
    db' = mkDb (Users db) (Tasks db ++ [Task.mk (newId e) txt false owner]) ∧
    b = JsonTask (Task.mk (newId e) txt false owner).
Proof.
  unfold post_tasks.
  destruct (js_not (body_text req)) eqn:Hn; [done|].
  apply js_not_false in Hn as (txt & Ht & Hne). rewrite Ht. simpl.
  unfold try_catch, mbind, M_bind, new_Task. on_db.
  destruct (cast_path (req_userId req)) as [err|owner] eqn:Hc; simpl; [done|].
  rewrite bool_decide_eq_false_2 by done.
  case_bool_decide as Hfresh; simpl; [done|].
  intros [= <- <-]. by exists txt, owner.
Qed.

(** C6. For a request authenticated as [owner] (its token verifies and
    the payload's [userId] casts to [owner]): without a text, or with the
    empty text, POST /tasks answers 400 "Task text is required" and the
    store is unchanged; with a non-empty text and a newly generated
    [_id], the Tasks collection gains exactly one document, with that
    [_id], the text, [completed] false and [userId] the owner, the Users
    collection is unchanged, and the answer is 201 with that document. *)
Theorem create_postcondition (e : Env) (req : Request) (db : Db)
    (tok : string) (decoded : JsObject) (owner : ObjectId) :
  authorization req = Some tok →
  jwt_verify tok SECRET (now e) = Some decoded →
  cast_path (js_get "userId" decoded) = inr (Some owner) →
  (body_text req = None ∨ body_text req = Some "" →
     app key POST_tasks e req db =
       (db, inr (mkResponse 400 (JsonError "Task text is required"))))
  ∧ (∀ txt, body_text req = Some txt → txt ≠ "" →
       newId e ∉ (Task._id <$> Tasks db) →
       app key POST_tasks e req db =
         (mkDb (Users db)
            (Tasks db ++ [Task.mk (newId e) txt false (Some owner)]),
          inr (mkResponse 201
                 (JsonTask (Task.mk (newId e) txt false (Some owner)))))).
Proof.
  intros Ha Hv Hc.
  rewrite (app_verified POST_tasks _ _ _ _ _ eq_refl Ha Hv). simpl. split.
  - intros Hn. apply post_tasks_no_text. by apply js_not_true.
  - intros txt Ht Hne Hfresh. by apply post_tasks_ok.
Qed.

(** C7. When POST /tasks with text "buy milk" answers 201, GET /tasks
    for the same authenticated identity lists, after the tasks it listed
    before, the created task, which has text "buy milk" and is not
    completed; so the list holds exactly one more such task than before
    (exactly one when it held none). *)
Theorem create_then_list (e e' : Env) (req req' : Request) (db db' : Db)
    (b : Body) (tok tok' : string) (decoded decoded' : JsObject) :
  authorization req = Some tok →
  jwt_verify tok SECRET (now e) = Some decoded →
  authorization req' = Some tok' →
  jwt_verify tok' SECRET (now e') = Some decoded' →
  js_get "userId" decoded' = js_get "userId" decoded →
  body_text req = Some "buy milk" →
  app key POST_tasks e req db = (db', inr (mkResponse 201 b)) →
  ∃ l t,
    app key GET_tasks e' req' db = (db, inr (mkResponse 200 (JsonTasks l)))
    ∧ app key GET_tasks e' req' db'
      = (db', inr (mkResponse 200 (JsonTasks (l ++ [t]))))
    ∧ b = JsonTask t ∧ buy_milk t
    ∧ length (filter buy_milk (l ++ [t])) = S (length (filter buy_milk l)).
Proof.
  intros Ha Hv Ha' Hv' Hsame Htext.
  rewrite (app_verified POST_tasks _ _ _ _ _ eq_refl Ha Hv). simpl.
  intros Hcreate.
  apply post_tasks_created in Hcreate
    as (txt & owner & Htxt & _ & Hc & _ & -> & ->).
  simpl in Htxt, Hc. rewrite Htext in Htxt. injection Htxt as <-.
  set (t := Task.mk (newId e) "buy milk" false owner).
  assert (∀ d, app key GET_tasks e' req' d
               = (d, inr (mkResponse 200
                            (JsonTasks (filter (owned_by owner) (Tasks d))))))
    as Hlist.
  { intros d.
    rewrite (app_verified GET_tasks _ _ _ _ _ eq_refl Ha' Hv'). simpl.
    apply get_tasks_ok. simpl.
    by rewrite Hsame. }
  exists (filter (owned_by owner) (Tasks db)), t.
  split_and!; [apply Hlist | | done | done |].
  - rewrite Hlist. simpl. rewrite list.filter_app.
    by rewrite (filter_cons_True (owned_by owner) t []).
  - rewrite list.filter_app, length_app.
    rewrite (filter_cons_True buy_milk t []) by done. simpl. lia.
Qed.

(** *** Deleting *)

Lemma NoDup_fmap_eq {A B} (f : A → B) (l : list A) (x y : A) :
  NoDup (f <$> l) → x ∈ l → y ∈ l → f x = f y → x = y.
Proof.
  induction l as [|a l IH]; simpl; intros Hnd Hx Hy Hf.
  { by apply elem_of_nil in Hx. }
  apply list.NoDup_cons in Hnd as [Ha Hnd].
  apply elem_of_cons in Hx as [-> | Hx]; apply elem_of_cons in Hy as [-> | Hy].
  - done.
  - exfalso. apply Ha. rewrite Hf. by apply list_elem_of_fmap_2.
  - exfalso. apply Ha. rewrite <- Hf. by apply list_elem_of_fmap_2.
  - by apply IH.
Qed.

Lemma delete_tasks_id_not_found (req : Request) (db : Db) (i : ObjectId)
    (o : option ObjectId) :
  castObjectId (JStr (params_id req)) = Some i →
  cast_path (req_userId req) = inr o →
  (∀ t, t ∈ Tasks db → Task._id t = i → Task.userId t ≠ o) →
  delete_tasks_id req db =
    (db, inr (mkResponse 404 (JsonError "Task not found"))).
Proof.
  intros Hi Ho Hnone.
  unfold delete_tasks_id, try_catch, mbind, M_bind. on_db.
  simpl. rewrite Hi, Ho.
  destruct (list_find _ (Tasks db)) as [[n t]|] eqn:Hfind; [|done].
  apply list_find_Some in Hfind as (Hn & [[= Hid] Hown] & _).
  exfalso. apply (Hnone t); [by eapply list_elem_of_lookup_2 | done | done].
Qed.

(** C1. Let [tokA] be the token login issued to user [A], still valid,
    and let [t] be a stored task whose owner [B] is another user. GET
    /tasks with [tokA] answers 200 with tasks that all belong to [A], so
    [t] and every other task of [B] are not among them; DELETE /tasks/:id
    with [tokA] and the id of [t] answers 404 "Task not found" and leaves
    the store, and so [t], as it was. *)
Theorem ownership_isolation (e0 e : Env) (login_req req : Request)
    (db0 db0' db : Db) (tokA : string) (A : User.Doc) (B : ObjectId)
    (t : Task.Doc) :
  post_login key e0 login_req db0
    = (db0', inr (mkResponse 200 (JsonToken tokA))) →
  User_findOne (js_str (body_username login_req)) db0 = (db0, inr (Some A)) →
  now e < now e0 + 3600 →
  authorization req = Some tokA →
  NoDup (Task._id <$> Tasks db) →
  t ∈ Tasks db → Task.userId t = Some B → User._id A ≠ B →
  (∃ l, app key GET_tasks e req db
          = (db, inr (mkResponse 200 (JsonTasks l)))
        ∧ (∀ x, x ∈ l → Task.userId x = Some (User._id A))
        ∧ (∀ x, x ∈ l → Task.userId x ≠ Some B)
        ∧ t ∉ l)
  ∧ (params_id req = toHexString (Task._id t) →
     app key DELETE_tasks_id e req db
       = (db, inr (mkResponse 404 (JsonError "Task not found")))
     ∧ t ∈ Tasks db).
Proof.
  intros Hlogin HA Hnow Ha Hnd Ht HtB HAB.
  apply post_login_ok in Hlogin
    as (name & pw & n & user & Hname & _ & _ & _ & Hfind & _ & -> & _).
  on_db. rewrite Hname in HA. simpl in HA.
  rewrite Hfind in HA. simpl in HA. injection HA as ->.
  pose proof (login_token_valid A (now e0) (now e) Hnow) as Hv.
  assert (cast_path (js_get "userId" (stamp (login_payload A) (now e0) 3600))
          = inr (Some (User._id A))) as Hc.
  { simpl. apply cast_path_hex. }
  split.
  - rewrite (app_verified GET_tasks _ _ _ _ _ eq_refl Ha Hv). simpl.
    rewrite (get_tasks_ok _ db (Some (User._id A))) by done.
    eexists. split; [done|].
    assert (∀ x, x ∈ filter (owned_by (Some (User._id A))) (Tasks db) →
                 Task.userId x = Some (User._id A)) as Hown.
    { intros x Hx. by apply list_elem_of_filter in Hx as [Hx _]. }
    split_and!; [done | |].
    + intros x Hx. rewrite (Hown x Hx). congruence.
    + intros Hin. apply Hown in Hin. congruence.
  - intros Hid. split; [|done].
    rewrite (app_verified DELETE_tasks_id _ _ _ _ _ eq_refl Ha Hv). simpl.
    apply (delete_tasks_id_not_found _ db (Task._id t) (Some (User._id A))).
    + simpl. rewrite Hid. apply castObjectId_toHexString.
    + done.
    + intros x Hx Hxid.
      rewrite (NoDup_fmap_eq Task._id (Tasks db) x t Hnd Hx Ht Hxid).
      congruence.
Qed.

(** *** Registering *)

Lemma save_duplicate_username (i : ObjectId) (name hash : string) (db : Db) :
  name ≠ "" → hash ≠ "" →
  name ∈ (User.username <$> Users db) →
  OnDb.User_save (new_User i name hash) db = (db, inl (MongoServerError 11000)).
Proof.
  intros Hne Hh Hdup. unfold OnDb.User_save, new_User. simpl.
  rewrite bool_decide_eq_false_2 by (by intros [? | ?]).
  rewrite bool_decide_eq_true_2; [done | by right].
Qed.

(** C5. When the username of the request is already stored, and it and
    the password are non-empty strings, POST /register answers 400
    "Username already exists" and the store is unchanged. The handler
    calls the store exactly once, with [save], which the unique index
    refuses with error code 11000: it makes no lookup of its own. *)
Theorem duplicate_registration (e : Env) (req : Request) (db : Db)
    (name pw : string) (ops : list Op) :
  body_username req = Some name → name ≠ "" →
  body_password req = Some pw → pw ≠ "" →
  name ∈ (User.username <$> Users db) →
  post_register e req db
    = (db, inr (mkResponse 400 (JsonError "Username already exists")))
  ∧ post_register e req (mkWorld db true ops)
    = (mkWorld db true
         (ops ++ [Op_User_save
                    (User.mk (newId e) name (bcrypt_hash pw 10 (salt e)))]),
       inr (mkResponse 400 (JsonError "Username already exists")))
  ∧ User_save (new_User (newId e) name (bcrypt_hash pw 10 (salt e))) db
    = (db, inl (MongoServerError 11000)).
Proof.
  intros Hname Hne Hpw Hpe Hdup.
  pose proof (save_duplicate_username (newId e) name
                (bcrypt_hash pw 10 (salt e)) db Hne
                (bcrypt_hash_nonempty _ _ _) Hdup) as Hsave.
  split_and!.
  - unfold post_register. rewrite Hname, Hpw. simpl.
    rewrite !bool_decide_eq_false_2 by done. simpl.
    unfold try_catch, mbind, M_bind, bcryptjs_hash, mret, M_ret.
    cbn [User_save Db_store]. by rewrite Hsave.
  - unfold post_register. rewrite Hname, Hpw. simpl.
    rewrite !bool_decide_eq_false_2 by done. simpl.
    unfold try_catch, mbind, M_bind, bcryptjs_hash, mret, M_ret.
    on_world. simpl. by rewrite Hsave.
  - cbn [User_save Db_store]. apply Hsave.
Qed.


(** *** Every route *)

Ltac run_handler :=
  unfold handler, post_register, post_login, get_tasks, post_tasks,
    delete_tasks_id, get_root, respond, bcryptjs_hash, bcryptjs_compare,
    throw, try_catch;
  on_db;
  unfold mbind, M_bind, mret, M_ret;
  simpl.

(** A handler always responds, and it leaves the store as it was unless
    it answers 200 or 201; the login and list handlers never write. *)
Lemma handler_responds (r : Route) (e : Env) (req : Request) (db : Db) :
  ∃ db' resp,
    handler key r e req db = (db', inr resp)
    ∧ (db' = db ∨ status resp = 200 ∨ status resp = 201)
    ∧ (r = POST_login ∨ r = GET_tasks → db' = db).
Proof.
  destruct r; run_handler;
    repeat (case_match; simplify_eq/=);
    eexists _, _; (split; [reflexivity|]);
    (split; [auto | intros [? | ?]; done]).
Qed.

(** C9. Every request is answered, and when the answer is 400, 401 or
    404 both collections are exactly as before the request; POST /login
    and GET /tasks leave them as before whatever the answer. *)
Theorem error_atomicity (r : Route) (e : Env) (req : Request) (db : Db) :
  ∃ db' resp,
    app key r e req db = (db', inr resp)
    ∧ (status resp = 400 ∨ status resp = 401 ∨ status resp = 404 → db' = db)
    ∧ (r = POST_login ∨ r = GET_tasks → db' = db).
Proof.
  assert (∀ req0, ∃ db' resp,
    handler key r e req0 db = (db', inr resp)
    ∧ (status resp = 400 ∨ status resp = 401 ∨ status resp = 404 → db' = db)
    ∧ (r = POST_login ∨ r = GET_tasks → db' = db)) as Hh.
  { intros req0.
    destruct (handler_responds r e req0 db) as (db' & resp & Heq & Hw & Hr).
    exists db', resp. split_and!; [done | | done].
    intros Hs. destruct Hw as [? | [H200 | H201]]; [done | lia | lia]. }
  unfold app. destruct (uses_authenticate r); [|apply Hh].
  destruct (authenticate key e req) as [resp | req']; [|apply Hh].
  by exists db, resp.
Qed.

(** The unique indexes hold in the empty store and every request keeps
    them. *)
Lemma indexes_hold_empty : indexes_hold (mkDb [] []).
Proof. unfold indexes_hold. simpl. split_and!; constructor. Qed.

Lemma NoDup_snoc {A} (l : list A) (x : A) : NoDup l → x ∉ l → NoDup (l ++ [x]).
Proof.
  intros Hl Hx. apply list.NoDup_app. split_and!; [done | | apply NoDup_singleton].
  intros y Hy Hin. apply list_elem_of_singleton in Hin as ->. done.
Qed.

Lemma NoDup_fmap_delete {A B} (f : A → B) (l : list A) (n : nat) :
  NoDup (f <$> l) → NoDup (f <$> delete n l).
Proof.
  revert n. induction l as [|a l IH]; intros n; simpl; [done|].
  intros Hnd. apply list.NoDup_cons in Hnd as [Ha Hnd].
  destruct n as [|n]; simpl; [done|].
  apply list.NoDup_cons. split; [|by apply IH].
  intros Hin. apply Ha.
  apply list_elem_of_fmap in Hin as (y & -> & Hy).
  apply list_elem_of_fmap_2. by eapply list_elem_of_delete_inv.
Qed.

Lemma handler_keeps_indexes (r : Route) (e : Env) (req : Request)
    (db db' : Db) (x : Exn + Response) :
  indexes_hold db → handler key r e req db = (db', x) → indexes_hold db'.
Proof.
  intros (Hu & Hn & Ht).
  destruct r; run_handler;
    repeat (case_match; simplify_eq/=); intros [= <- <-]; try done.
  - (* register: the saved user *)
    match goal with
    | H : bool_decide (_ ∨ _) = false |- _ =>
        apply bool_decide_eq_false in H; apply Decidable.not_or in H as [? ?]
    end.
    unfold indexes_hold. simpl. rewrite !fmap_app. simpl.
    split_and!; [by apply NoDup_snoc | by apply NoDup_snoc | done].
  - (* create: the saved task *)
    match goal with
    | H : bool_decide (_ ∈ _) = false |- _ => apply bool_decide_eq_false in H
    end.
    unfold indexes_hold. simpl. rewrite !fmap_app. simpl.
    split_and!; [done | done | by apply NoDup_snoc].
  - (* delete: the removed task *)
    unfold indexes_hold. simpl.
    split_and!; [done | done | by apply NoDup_fmap_delete].
Qed.

Lemma app_keeps_indexes (r : Route) (e : Env) (req : Request)
    (db db' : Db) (x : Exn + Response) :
  indexes_hold db → app key r e req db = (db', x) → indexes_hold db'.
Proof.
  intros Hdb. unfold app. destruct (uses_authenticate r).
  - destruct (authenticate key e req) as [resp | req'].
    + by intros [= <- _].
    + by apply handler_keeps_indexes.
  - by apply handler_keeps_indexes.
Qed.

End Properties.

(** ** Further properties of the routes *)

Section Routes.
Context {codec : ObjectIdCodec} {jwt : Jwt} {bcrypt : Bcrypt}.
Variable key : option string.

(** Usernames and passwords named in the statements are strings. *)
Implicit Types name pw : string.

Abbreviation SECRET := (SECRET_KEY key).

Ltac step_handler :=
  unfold handler, post_register, post_login, get_tasks, post_tasks,
    delete_tasks_id, get_root, respond, bcryptjs_hash, bcryptjs_compare,
    throw, new_User, new_Task, try_catch;
  on_db;
  unfold mbind, M_bind, mret, M_ret;
  simpl.

(** What a request authenticated as [o] reaches its handler with. *)
Lemma app_authenticated_as (r : Route) (e : Env) (req : Request) (db : Db)
    (o : option ObjectId) :
  uses_authenticate r = true → authenticated_as key e req o →
  ∃ req', app key r e req db = handler key r e req' db
          ∧ cast_path (req_userId req') = inr o
          ∧ params_id req' = params_id req
          ∧ body_text req' = body_text req.
Proof.
  intros Hr (tok & decoded & Ha & Hv & Hc).
  exists (set_userId req (js_get "userId" decoded)).
  split; [|done]. by apply (app_verified key r e req db tok decoded).
Qed.

(** *** Which route writes what *)

Lemma handler_writes (r : Route) (e : Env) (req : Request) (db : Db) :
  ∃ db' resp,
    handler key r e req db = (db', inr resp)
    ∧ (db' = db
       ∨ (r = POST_register ∧ status resp = 201)
       ∨ (r = POST_tasks ∧ status resp = 201)
       ∨ (r = DELETE_tasks_id ∧ status resp = 200))
    ∧ status resp ∈ [200; 201; 400; 401; 404; 500].
Proof.
  destruct r; step_handler;
    repeat (case_match; simplify_eq/=);
    eexists _, _; (split; [reflexivity|]);
    (split; [auto 6 | solve [repeat constructor]]).
Qed.

(** X2. Every request is answered with one of six statuses, and the store
    is changed only together with the 201 of POST /register or POST
    /tasks or the 200 of DELETE /tasks/:id: an answer 500 leaves both
    collections as they were, like 400, 401 and 404. *)
Theorem writes_only_on_success (r : Route) (e : Env) (req : Request) (db : Db) :
  ∃ db' resp,
    app key r e req db = (db', inr resp)
    ∧ (db' = db
       ∨ (r = POST_register ∧ status resp = 201)
       ∨ (r = POST_tasks ∧ status resp = 201)
       ∨ (r = DELETE_tasks_id ∧ status resp = 200))
    ∧ status resp ∈ [200; 201; 400; 401; 404; 500].
Proof.
  unfold app. destruct (uses_authenticate r); [|apply handler_writes].
  destruct (authenticate key e req) as [resp|req'] eqn:Hauth;
    [|apply handler_writes].
  exists db, resp. unfold authenticate in Hauth.
  repeat case_match; simplify_eq;
    (split_and!; [done | auto | solve [repeat constructor]]).
Qed.

Lemma post_register_users (e : Env) (req : Request) (db : Db) :
  Tasks (fst (post_register e req db)) = Tasks db
  ∧ (Users (fst (post_register e req db)) = Users db
     ∨ ∃ name pw,
         body_username req = Some name ∧ name ≠ ""
         ∧ body_password req = Some pw ∧ pw ≠ ""
         ∧ Users (fst (post_register e req db))
           = Users db ++ [User.mk (newId e) name (bcrypt_hash pw 10 (salt e))]).
Proof.
  unfold post_register.
  destruct (js_not (body_username req)) eqn:Hu; [by split; [|left]|].
  destruct (js_not_val (body_password req)) eqn:Hp; [by split; [|left]|].
  apply js_not_false in Hu as (name & Hname & Hne).
  rewrite Hname.
  destruct (body_password req) as [[| | |pw]|]; step_handler;
    try (by split; [|left]).
  apply bool_decide_eq_false in Hp.
  repeat (case_match; simplify_eq/=); (split; [done|]); try by left.
  right. by exists name, pw.
Qed.

(** X3. User documents are never changed or removed. A request leaves the
    Users collection as it was, except that POST /register with a
    non-empty username and password may append one document, whose
    password field is the bcrypt hash (10 rounds) of the password sent;
    and only POST /tasks and DELETE /tasks/:id change the Tasks
    collection. *)
Theorem users_only_grow (db : Db) (c : Call) :
  (Users (serve key db c) = Users db
   ∨ (call_route c = POST_register
      ∧ ∃ name pw,
          body_username (call_req c) = Some name ∧ name ≠ ""
          ∧ body_password (call_req c) = Some pw ∧ pw ≠ ""
          ∧ Users (serve key db c)
            = Users db
              ++ [User.mk (newId (call_env c)) name
                    (bcrypt_hash pw 10 (salt (call_env c)))]))
  ∧ (Tasks (serve key db c) = Tasks db
     ∨ call_route c = POST_tasks ∨ call_route c = DELETE_tasks_id).
Proof.
  destruct c as [r e req]. unfold serve, app. simpl.
  assert (∀ req0 : Request,
    (Users (fst (handler key r e req0 db)) = Users db
     ∨ (r = POST_register
        ∧ ∃ name pw,
            body_username req0 = Some name ∧ name ≠ ""
            ∧ body_password req0 = Some pw ∧ pw ≠ ""
            ∧ Users (fst (handler key r e req0 db))
              = Users db ++ [User.mk (newId e) name (bcrypt_hash pw 10 (salt e))]))
    ∧ (Tasks (fst (handler key r e req0 db)) = Tasks db
       ∨ r = POST_tasks ∨ r = DELETE_tasks_id)) as Hh.
  { intros req0. destruct r.
    - simpl. destruct (post_register_users e req0 db) as [Ht [Hu | Hu]].
      + by split; left.
      + split; [right | by left]. by split.
    - step_handler. repeat (case_match; simplify_eq/=); by split; left.
    - step_handler. repeat (case_match; simplify_eq/=); by split; left.
    - step_handler. repeat (case_match; simplify_eq/=); split; auto.
    - step_handler. repeat (case_match; simplify_eq/=); split; auto.
    - by split; left. }
  destruct (uses_authenticate r) eqn:Hr; [|apply Hh].
  destruct (authenticate key e req) as [resp|req'] eqn:Hauth.
  - by split; left.
  - destruct (Hh req') as [[Hu | (-> & _)] Ht]; [|done]. split; [by left | done].
Qed.

(** *** Invariants of the store *)

Lemma handler_keeps_valid (r : Route) (e : Env) (req : Request) (db : Db) :
  documents_valid db → documents_valid (fst (handler key r e req db)).
Proof.
  intros [Hu Ht]. destruct r; step_handler;
    repeat (case_match; simplify_eq/=); try done.
  - (* register *)
    match goal with
    | H : bool_decide (_ = "" ∨ _) = false |- _ =>
        apply bool_decide_eq_false in H; apply Decidable.not_or in H as [? ?]
    end.
    split; [|done]. simpl. apply Forall_app. split; [done|].
    by apply Forall_singleton.
  - (* create *)
    match goal with
    | H : bool_decide (_ = "") = false |- _ => apply bool_decide_eq_false in H
    end.
    split; [done|]. simpl. apply Forall_app. split; [done|].
    by apply Forall_singleton.
  - (* delete *)
    split; [done|]. simpl. by apply Forall_delete.
Qed.

Lemma app_keeps_valid (r : Route) (e : Env) (req : Request) (db : Db) :
  documents_valid db → documents_valid (fst (app key r e req db)).
Proof.
  intros Hdb. unfold app. destruct (uses_authenticate r).
  - destruct (authenticate key e req) as [resp | req']; [done|].
    by apply handler_keeps_valid.
  - by apply handler_keeps_valid.
Qed.

Lemma run_keeps (P : Db → Prop) (calls : list Call) (db : Db) :
  (∀ d c, P d → P (serve key d c)) → P db → P (run key calls db).
Proof.
  intros Hstep. revert db. unfold run.
  induction calls as [|c calls IH]; intros db Hdb; simpl; [done|].
  apply IH. by apply Hstep.
Qed.

(** X4. In every store reached from the empty one by a sequence of
    requests, no two users share an [_id] or a [username] and no two tasks
    share an [_id]. *)
Theorem unique_indexes_always (calls : list Call) :
  indexes_hold (run key calls (mkDb [] [])).
Proof.
  apply run_keeps; [|apply indexes_hold_empty].
  intros d [r e req] Hd. unfold serve. simpl.
  destruct (app key r e req d) as [d' x] eqn:Happ.
  by apply (app_keeps_indexes key r e req d d' x).
Qed.

(** X5. In every store reached from the empty one by a sequence of
    requests, every user has a non-empty username and password field and
    every task has a non-empty text and is not completed: no route ever
    sets [completed]. *)
Theorem documents_valid_always (calls : list Call) :
  documents_valid (run key calls (mkDb [] [])).
Proof.
  apply run_keeps.
  - intros d [r e req] Hd. by apply app_keeps_valid.
  - split; constructor.
Qed.

(** *** Tasks of one owner and tasks of the others *)

Lemma filter_all {A} (P : A → Prop) `{!∀ x, Decision (P x)} (l : list A) :
  Forall P l → filter P l = l.
Proof.
  induction 1 as [|x l Hx Hl IH]; [done|].
  by rewrite filter_cons_True, IH.
Qed.

Lemma delete_unique (l : list Task.Doc) (n : nat) (t : Task.Doc) :
  NoDup (Task._id <$> l) → l !! n = Some t →
  delete n l = filter (λ x, Task._id x ≠ Task._id t) l.
Proof.
  revert n. induction l as [|a l IH]; intros n Hnd Hn; [done|].
  simpl in Hnd. apply list.NoDup_cons in Hnd as [Ha Hnd].
  destruct n as [|n]; simpl in *.
  - injection Hn as ->. rewrite filter_cons_False.
    2:{ intros Hne. by apply Hne. }
    symmetry. apply filter_all, list.Forall_forall. intros x Hx Heq.
    apply Ha. rewrite <- Heq. by apply list_elem_of_fmap_2.
  - rewrite filter_cons_True.
    + by rewrite (IH n).
    + intros Heq. apply Ha. rewrite Heq.
      apply list_elem_of_fmap_2. by eapply list_elem_of_lookup_2.
Qed.

Lemma filter_delete_other {A} (P : A → Prop) `{!∀ x, Decision (P x)}
    (l : list A) (n : nat) (t : A) :
  l !! n = Some t → ¬ P t → filter P (delete n l) = filter P l.
Proof.
  revert n. induction l as [|a l IH]; intros n Hn Ht; [done|].
  destruct n as [|n]; simpl in *.
  - injection Hn as ->. by rewrite filter_cons_False.
  - rewrite !filter_cons. by rewrite (IH n).
Qed.

Lemma delete_tasks_id_found (req : Request) (db : Db) (o : option ObjectId)
    (t : Task.Doc) :
  castObjectId (JStr (params_id req)) = Some (Task._id t) →
  cast_path (req_userId req) = inr o →
  NoDup (Task._id <$> Tasks db) →
  t ∈ Tasks db → Task.userId t = o →
  delete_tasks_id req db =
    (mkDb (Users db) (filter (λ x, Task._id x ≠ Task._id t) (Tasks db)),
     inr (mkResponse 200 (JsonMessage "Task deleted successfully"))).
Proof.
  intros Hi Ho Hnd Ht Hown.
  unfold delete_tasks_id, try_catch, mbind, M_bind. on_db.
  simpl. rewrite Hi, Ho.
  destruct (list_find _ (Tasks db)) as [[n t']|] eqn:Hfind.
  - apply list_find_Some in Hfind as (Hn & [[= Hid] _] & _).
    assert (t' = t) as ->.
    { apply (NoDup_fmap_eq Task._id (Tasks db)); [done | | done | done].
      by eapply list_elem_of_lookup_2. }
    simpl. by rewrite (delete_unique _ _ _ Hnd Hn).
  - apply list_find_None in Hfind. rewrite list.Forall_forall in Hfind.
    by destruct (Hfind t Ht).
Qed.

(** X6. With a token that authenticates as [o], DELETE /tasks/:id with
    the id of a stored task whose owner is [o] answers 200, removes that
    task and no other; the same request once more answers 404 and
    changes nothing. *)
Theorem delete_own_task (e : Env) (req : Request) (db : Db)
    (o : option ObjectId) (t : Task.Doc) :
  authenticated_as key e req o →
  NoDup (Task._id <$> Tasks db) →
  t ∈ Tasks db → Task.userId t = o →
  params_id req = toHexString (Task._id t) →
  ∃ db',
    app key DELETE_tasks_id e req db
      = (db', inr (mkResponse 200 (JsonMessage "Task deleted successfully")))
    ∧ Users db' = Users db
    ∧ (∀ x, x ∈ Tasks db' ↔ x ∈ Tasks db ∧ x ≠ t)
    ∧ app key DELETE_tasks_id e req db'
      = (db', inr (mkResponse 404 (JsonError "Task not found"))).
Proof.
  intros Hauth Hnd Ht Hown Hid.
  assert (∀ x, x ∈ filter (λ x, Task._id x ≠ Task._id t) (Tasks db)
               ↔ x ∈ Tasks db ∧ x ≠ t) as Hmem.
  { intros x. rewrite list_elem_of_filter. split.
    - intros [Hne Hx]. split; [done | by intros ->].
    - intros [Hx Hne]. split; [|done]. intros Heq. apply Hne.
      by apply (NoDup_fmap_eq Task._id (Tasks db)). }
  eexists. split_and!.
  - destruct (app_authenticated_as DELETE_tasks_id e req db o eq_refl Hauth)
      as (req' & -> & Hc & Hp & _).
    simpl. apply (delete_tasks_id_found _ _ o); try done.
    rewrite Hp, Hid. apply castObjectId_toHexString.
  - done.
  - done.
  - match goal with |- app _ _ _ _ ?d = _ =>
      destruct (app_authenticated_as DELETE_tasks_id e req d o eq_refl Hauth)
        as (req' & -> & Hc & Hp & _)
    end.
    simpl. apply (delete_tasks_id_not_found _ _ (Task._id t) o).
    + rewrite Hp, Hid. apply castObjectId_toHexString.
    + done.
    + simpl. intros x [Hne _]%list_elem_of_filter Heq. done.
Qed.

(** X7. DELETE /tasks/:id answers the same 404 "Task not found", and
    changes nothing, whether no stored task has the id of the request or
    the task that has it belongs to someone else: all it takes is that no
    stored task has both that id and the owner the token authenticates
    as. *)
Theorem delete_unknown_or_foreign (e : Env) (req : Request) (db : Db)
    (o : option ObjectId) (i : ObjectId) :
  authenticated_as key e req o →
  castObjectId (JStr (params_id req)) = Some i →
  (∀ t, t ∈ Tasks db → Task._id t = i → Task.userId t ≠ o) →
  app key DELETE_tasks_id e req db
    = (db, inr (mkResponse 404 (JsonError "Task not found"))).
Proof.
  intros Hauth Hi Hnone.
  destruct (app_authenticated_as DELETE_tasks_id e req db o eq_refl Hauth)
    as (req' & -> & Hc & Hp & _).
  simpl. apply (delete_tasks_id_not_found _ _ i o); [by rewrite Hp | done | done].
Qed.

(** X8. A request authenticated as [o] to a protected route leaves the
    Users collection and every task whose owner is not [o] as they were,
    in the same order. *)
Theorem others_tasks_untouched (r : Route) (e : Env) (req : Request) (db : Db)
    (o : option ObjectId) :
  uses_authenticate r = true →
  authenticated_as key e req o →
  Users (fst (app key r e req db)) = Users db
  ∧ filter (λ t, ¬ owned_by o t) (Tasks (fst (app key r e req db)))
    = filter (λ t, ¬ owned_by o t) (Tasks db).
Proof.
  intros Hr Hauth.
  destruct (app_authenticated_as r e req db o Hr Hauth)
    as (req' & -> & Hc & _ & _).
  destruct r; try done; step_handler; rewrite Hc;
    repeat (case_match; simplify_eq/=); try done.
  - (* create: the new task is owned by o *)
    split; [done|]. rewrite list.filter_app.
    rewrite filter_cons_False.
    2:{ intros Hn. by apply Hn. }
    by rewrite filter_nil, app_nil_r.
  - (* delete: the removed task is owned by o *)
    split; [done|].
    match goal with
    | H : list_find _ _ = Some _ |- _ =>
        apply list_find_Some in H as (Hn & [_ Hown] & _)
    end.
    apply (filter_delete_other _ _ _ _ Hn). by intros Hnot.
Qed.

(** X9. GET /tasks with a token that authenticates as [o] answers 200
    with all the stored tasks whose owner is [o] and no other task, in
    the order of the collection. *)
Theorem list_own_tasks (e : Env) (req : Request) (db : Db)
    (o : option ObjectId) :
  authenticated_as key e req o →
  ∃ l, app key GET_tasks e req db = (db, inr (mkResponse 200 (JsonTasks l)))
       ∧ (∀ t, t ∈ l ↔ t ∈ Tasks db ∧ Task.userId t = o)
       ∧ sublist l (Tasks db).
Proof.
  intros Hauth.
  destruct (app_authenticated_as GET_tasks e req db o eq_refl Hauth)
    as (req' & -> & Hc & _ & _).
  exists (filter (owned_by o) (Tasks db)). split_and!.
  - by apply get_tasks_ok.
  - intros t. rewrite list_elem_of_filter. unfold owned_by. tauto.
  - apply sublist_filter.
Qed.

(** X10. A task created with POST /tasks and then deleted by the same
    identity with the [_id] the 201 response carried leaves the store
    exactly as it was before the two requests. *)
Theorem create_then_delete (e e' : Env) (req req' : Request) (db : Db)
    (o : option ObjectId) (txt : string) :
  authenticated_as key e req o →
  body_text req = Some txt → txt ≠ "" →
  newId e ∉ (Task._id <$> Tasks db) →
  authenticated_as key e' req' o →
  ∃ db1 t,
    app key POST_tasks e req db = (db1, inr (mkResponse 201 (JsonTask t)))
    ∧ t ∈ Tasks db1
    ∧ (params_id req' = toHexString (Task._id t) →
       app key DELETE_tasks_id e' req' db1
         = (db, inr (mkResponse 200 (JsonMessage "Task deleted successfully")))).
Proof.
  intros Hauth Htxt Hne Hfresh Hauth'. destruct db as [users tasks].
  set (t := Task.mk (newId e) txt false o).
  exists (mkDb users (tasks ++ [t])), t. split_and!.
  - destruct (app_authenticated_as POST_tasks e req (mkDb users tasks) o
                eq_refl Hauth) as (req1 & -> & Hc & _ & Hb).
    simpl. apply post_tasks_ok; [by rewrite Hb | done | done | done].
  - simpl. apply elem_of_app. right. by apply list_elem_of_singleton.
  - intros Hid.
    destruct (app_authenticated_as DELETE_tasks_id e' req'
                (mkDb users (tasks ++ [t])) o eq_refl Hauth')
      as (req1 & -> & Hc & Hp & _).
    simpl.
    unfold delete_tasks_id, try_catch, mbind, M_bind. on_db.
    simpl. rewrite Hp, Hid, castObjectId_toHexString, Hc. simpl.
    rewrite list_find_app_r.
    + simpl. rewrite decide_True by done. simpl.
      by rewrite (delete_middle tasks [] t), app_nil_r.
    + apply list_find_None, list.Forall_forall.
      intros x Hx [[= Heq] _]. apply Hfresh. simpl. rewrite <- Heq.
      by apply list_elem_of_fmap_2.
Qed.

(** X11. DELETE /tasks/:id with a verified token and a route parameter
    that is not an ObjectId answers 500 "Failed to delete task", not 404,
    and changes nothing. *)
Theorem delete_malformed_id (e : Env) (req : Request) (db : Db)
    (tok : string) (decoded : JsObject) :
  authorization req = Some tok →
  jwt_verify tok SECRET (now e) = Some decoded →
  castObjectId (JStr (params_id req)) = None →
  app key DELETE_tasks_id e req db
    = (db, inr (mkResponse 500 (JsonError "Failed to delete task"))).
Proof.
  intros Ha Hv Hid.
  rewrite (app_verified key DELETE_tasks_id _ _ _ _ _ eq_refl Ha Hv). simpl.
  unfold delete_tasks_id, try_catch, mbind, M_bind. on_db.
  simpl. by rewrite Hid.
Qed.

(** X12. When the token verifies and the [userId] of its payload is a
    string that does not cast to an ObjectId, the three task routes
    answer 500 and change nothing: GET /tasks "Failed to fetch tasks",
    POST /tasks with a text "Failed to add task", DELETE /tasks/:id
    "Failed to delete task". *)
Theorem uncastable_identity (e : Env) (req : Request) (db : Db)
    (tok : string) (decoded : JsObject) (s : string) :
  authorization req = Some tok →
  jwt_verify tok SECRET (now e) = Some decoded →
  js_get "userId" decoded = Some (JStr s) →
  castObjectId (JStr s) = None →
  app key GET_tasks e req db
    = (db, inr (mkResponse 500 (JsonError "Failed to fetch tasks")))
  ∧ (js_not (body_text req) = false →
     app key POST_tasks e req db
       = (db, inr (mkResponse 500 (JsonError "Failed to add task"))))
  ∧ app key DELETE_tasks_id e req db
    = (db, inr (mkResponse 500 (JsonError "Failed to delete task"))).
Proof.
  intros Ha Hv Hs Hcast.
  assert (cast_path (js_get "userId" decoded) = inl CastError) as Hc.
  { rewrite Hs. unfold cast_path. by rewrite Hcast. }
  split_and!.
  - rewrite (app_verified key GET_tasks _ _ _ _ _ eq_refl Ha Hv). simpl.
    unfold get_tasks, try_catch, mbind, M_bind. on_db. simpl.
    by rewrite Hc.
  - intros Htext.
    rewrite (app_verified key POST_tasks _ _ _ _ _ eq_refl Ha Hv). simpl.
    unfold post_tasks. simpl. rewrite Htext.
    unfold try_catch, mbind, M_bind, new_Task. on_db. simpl.
    by rewrite Hc.
  - rewrite (app_verified key DELETE_tasks_id _ _ _ _ _ eq_refl Ha Hv). simpl.
    unfold delete_tasks_id, try_catch, mbind, M_bind. on_db.
    simpl. rewrite Hc. by destruct (castObjectId (JStr (params_id req))).
Qed.

(** *** The browser functions against the server *)

Lemma jwt_verify_bearer (rest k : string) (t : Z) :
  jwt_verify ("Bearer " +:+ rest) k t = None.
Proof.
  destruct (jwt_verify _ _ _) as [p|] eqn:Hv; [|done].
  apply jwt_verify_shape in Hv. by rewrite bearer_not_jws in Hv.
Qed.

(** X13. [fetchTasks] never receives the tasks. Whatever [localStorage]
    holds (also the token a successful [loginUser] has just stored) the
    header it sends is "Bearer " followed by that value, which the server
    verifies as it is: the answer logged is the error "Invalid token",
    and the store is untouched. *)
Theorem fetchTasks_invalid_token (se : Env) (b : Browser) (db : Db) :
  fetchTasks key se (b, db) = (console_log (JsonError "Invalid token") b, db).
Proof.
  unfold fetchTasks, fetch.
  rewrite (app_invalid_token key GET_tasks se _ db
             ("Bearer " +:+ template (localStorage_token b)));
    [done | done | done | done | apply jwt_verify_bearer].
Qed.

(** X14. [loginUser] on a store that may be out of reach. With an empty
    input it alerts "Username and password are required" and the store
    is not called. Otherwise the store is called once, with [findOne];
    when Mongoose is not connected the alert is "Failed to log in"; when
    the username is not stored or the password does not match it is
    "Invalid username or password"; in these cases [localStorage] is left
    as it was, an earlier token included. Only when the user is found and
    the password matches is the token the server signed stored in
    [localStorage], with the alert "Login successful!". The database is
    never changed. *)
Theorem loginUser_outcome (se : Env) (b : Browser) (w : World) :
  loginUser key se (b, w) =
    if bool_decide (input_username b = "" ∨ input_password b = "")
    then (alert (Some "Username and password are required") b, w)
    else
      let w' :=
        mkWorld (world_db w) (connected w)
          (operations w ++ [Op_User_findOne (input_username b)]) in
      if negb (connected w)
      then (alert (Some "Failed to log in") b, w')
      else
        match list_find (λ u, User.username u = input_username b)
                (Users (world_db w)) with
        | Some (_, user) =>
            if bcrypt_compare (input_password b) (User.password user)
            then (alert (Some "Login successful!")
                    (localStorage_setItem_token
                       (jwt_sign (login_payload user) SECRET 3600 (now se)) b),
                  w')
            else (alert (Some "Invalid username or password") b, w')
        | None => (alert (Some "Invalid username or password") b, w')
        end.
Proof.
  unfold loginUser, fetch, app. simpl. unfold post_login. simpl.
  destruct (decide (input_username b = "")) as [Hu | Hu].
  { rewrite (bool_decide_eq_true_2 _ Hu). simpl.
    rewrite bool_decide_eq_true_2; [done | by left]. }
  destruct (decide (input_password b = "")) as [Hp | Hp].
  { rewrite (bool_decide_eq_true_2 _ Hp), orb_true_r. simpl.
    rewrite bool_decide_eq_true_2; [done | by right]. }
  rewrite !(bool_decide_eq_false_2 (_ = "")) by done. simpl.
  rewrite (bool_decide_eq_false_2 (_ ∨ _)) by (by intros [? | ?]).
  unfold try_catch, mbind, M_bind, bcryptjs_compare, respond, mret, M_ret.
  on_world. unfold OnDb.User_findOne. simpl.
  destruct (connected w); simpl; [|done].
  destruct (list_find _ (Users (world_db w))) as [[n user]|]; simpl; [|done].
  destruct (bcrypt_compare _ _); simpl; [|done].
  unfold response_json. simpl.
  by rewrite bool_decide_eq_false_2 by apply login_token_nonempty.
Qed.

(** X15. [registerUser] on a store that may be out of reach. With an
    empty input it alerts "Username and password are required" and the
    store is not called. Otherwise the store is called once, with [save]
    of the user with the bcrypt hash as password; when Mongoose is not
    connected the alert is "Failed to register user"; when the username
    (or the generated [_id]) is already stored it is "Username already
    exists"; in both cases the database is unchanged. Otherwise the alert
    is "User registered successfully" and the database has gained that
    user. The alert is never [undefined]. *)
Theorem registerUser_outcome (se : Env) (b : Browser) (w : World) :
  registerUser key se (b, w) =
    if bool_decide (input_username b = "" ∨ input_password b = "")
    then (alert (Some "Username and password are required") b, w)
    else
      let user :=
        User.mk (newId se) (input_username b)
          (bcrypt_hash (input_password b) 10 (salt se)) in
      let ops := operations w ++ [Op_User_save user] in
      if negb (connected w)
      then (alert (Some "Failed to register user") b,
            mkWorld (world_db w) false ops)
      else if bool_decide
                (newId se ∈ (User._id <$> Users (world_db w))
                 ∨ input_username b ∈ (User.username <$> Users (world_db w)))
      then (alert (Some "Username already exists") b,
            mkWorld (world_db w) true ops)
      else (alert (Some "User registered successfully") b,
            mkWorld (mkDb (Users (world_db w) ++ [user]) (Tasks (world_db w)))
              true ops).
Proof.
  unfold registerUser, fetch, app. simpl. unfold post_register. simpl.
  destruct (decide (input_username b = "")) as [Hu | Hu].
  { rewrite (bool_decide_eq_true_2 _ Hu). simpl.
    rewrite bool_decide_eq_true_2; [done | by left]. }
  destruct (decide (input_password b = "")) as [Hp | Hp].
  { rewrite (bool_decide_eq_true_2 _ Hp), orb_true_r. simpl.
    rewrite bool_decide_eq_true_2; [done | by right]. }
  rewrite !(bool_decide_eq_false_2 (_ = "")) by done. simpl.
  rewrite (bool_decide_eq_false_2 (_ ∨ _)) by (by intros [? | ?]).
  unfold try_catch, mbind, M_bind, bcryptjs_hash, new_User, respond, mret, M_ret.
  on_world. unfold OnDb.User_save. simpl.
  rewrite bool_decide_eq_false_2.
  2:{ intros [? | Hh]; [done | by apply bcrypt_hash_nonempty in Hh]. }
  destruct (connected w); simpl; by case_bool_decide.
Qed.

(** *** The store with its connection *)

Ltac step_world :=
  unfold handler, post_register, post_login, get_tasks, post_tasks,
    delete_tasks_id, get_root, respond, bcryptjs_hash, bcryptjs_compare,
    throw, new_User, new_Task, try_catch;
  on_world; on_db;
  unfold mbind, M_bind, mret, M_ret;
  simpl.

Lemma handler_connected (r : Route) (e : Env) (req : Request) (db : Db)
    (ops : list Op) :
  ∃ called,
    handler key r e req (mkWorld db true ops)
      = (mkWorld (fst (handler key r e req db)) true (ops ++ called),
         snd (handler key r e req db))
    ∧ (length called ≤ 1)%nat.
Proof.
  destruct r; step_world;
    repeat (case_match; simplify_eq/=);
    first [ by (exists []; rewrite app_nil_r; split; [reflexivity | simpl; lia])
          | by (eexists [_]; split; [reflexivity | simpl; lia]) ].
Qed.

(** X16. While Mongoose is connected, a request on the store with its
    list of operations changes the database and answers exactly as on the
    database alone, and its handler calls the store at most once. *)
Theorem one_operation_per_request (r : Route) (e : Env) (req : Request)
    (db : Db) (ops : list Op) :
  ∃ called,
    app key r e req (mkWorld db true ops)
      = (mkWorld (fst (app key r e req db)) true (ops ++ called),
         snd (app key r e req db))
    ∧ (length called ≤ 1)%nat.
Proof.
  unfold app. destruct (uses_authenticate r); [|apply handler_connected].
  destruct (authenticate key e req) as [resp|req']; [|apply handler_connected].
  exists []. rewrite app_nil_r. split; [done | simpl; lia].
Qed.

Lemma handler_unreachable (r : Route) (e : Env) (req : Request) (db : Db)
    (ops : list Op) :
  ∃ resp called,
    handler key r e req (mkWorld db false ops)
      = (mkWorld db false (ops ++ called), inr resp)
    ∧ ((r = GET_root ∧ status resp = 200) ∨ status resp ∈ [400; 401; 500])
    ∧ (called = [] ∨ status resp = 500).
Proof.
  destruct r; step_world;
    repeat (case_match; simplify_eq/=);
    first [ (eexists _, []; rewrite app_nil_r; split; [reflexivity|])
          | (eexists _, [_]; split; [reflexivity|]) ];
    (split; [first [ by left | right; solve [repeat constructor] ] | auto]).
Qed.

(** X17. While Mongoose is not connected no request changes the
    database, and every request is still answered: GET / with 200, any
    other route with 400, 401 or 500, and with 500 whenever its handler
    called the store. *)
Theorem store_unreachable (r : Route) (e : Env) (req : Request) (db : Db)
    (ops : list Op) :
  ∃ resp called,
    app key r e req (mkWorld db false ops)
      = (mkWorld db false (ops ++ called), inr resp)
    ∧ ((r = GET_root ∧ status resp = 200) ∨ status resp ∈ [400; 401; 500])
    ∧ (called = [] ∨ status resp = 500).
Proof.
  unfold app. destruct (uses_authenticate r); [|apply handler_unreachable].
  destruct (authenticate key e req) as [resp|req'] eqn:Hauth;
    [|apply handler_unreachable].
  exists resp, []. rewrite app_nil_r. split; [done|].
  unfold authenticate in Hauth.
  repeat case_match; simplify_eq;
    (split; [right; solve [repeat constructor] | by left]).
Qed.

End Routes.

(** ** The properties on the concrete run *)

#[local] Existing Instances exec_codec exec_jwt exec_bcrypt.

Import Scenario.

(** The gate on the run: no header; Alice's token after its hour; and
    Alice's token within its hour on a request that came with Bob's id as
    [userId]: the list is Alice's. *)
Lemma credential_gate_witness :
  app None GET_tasks (later 0) (request None "" None None None) db_both
    = (db_both, inr no_token)
  ∧ app None DELETE_tasks_id too_late (request (Some tokA) "x" None None None)
      db_both
    = (db_both, inr invalid_token)
  ∧ app None GET_tasks (later 0)
      (mkRequest (Some tokA) "" None None None (Some (JStr (Exec.hex 2))))
      db_both
    = (db_both, inr (mkResponse 200 (JsonTasks [milk1]))).
Proof.
  split_and!.
  - apply (credential_gate None GET_tasks (later 0) _ db_both eq_refl).
    by left.
  - apply (proj1 (proj2 (credential_gate None DELETE_tasks_id too_late _
                           db_both eq_refl)) tokA);
      [reflexivity | discriminate | vm_compute; reflexivity].
  - destruct (proj2 (proj2 (credential_gate None GET_tasks (later 0)
                (mkRequest (Some tokA) "" None None None
                   (Some (JStr (Exec.hex 2))))
                db_both eq_refl)) tokA
             (stamp [("userId", JStr (Exec.hex 1))] 1000 3600))
      as (req' & -> & Hid & _);
      [reflexivity | vm_compute; reflexivity |].
    simpl. rewrite (get_tasks_ok req' db_both (Some 1%N)).
    + vm_compute; reflexivity.
    + rewrite Hid. vm_compute; reflexivity.
Defined.

Ltac compute_true := apply (bool_decide_unpack _); vm_compute; exact I.

(** Alice, with her token, neither sees nor deletes Bob's task. *)
Lemma ownership_isolation_witness :
  (∃ l, app None GET_tasks (later 0) (as_alice (Exec.hex 20) None) db_bob
          = (db_bob, inr (mkResponse 200 (JsonTasks l)))
        ∧ (∀ x, x ∈ l → Task.userId x = Some (User._id alice))
        ∧ (∀ x, x ∈ l → Task.userId x ≠ Some 2%N)
        ∧ bobs_task ∉ l)
  ∧ (params_id (as_alice (Exec.hex 20) None) = toHexString (Task._id bobs_task) →
     app None DELETE_tasks_id (later 0) (as_alice (Exec.hex 20) None) db_bob
       = (db_bob, inr (mkResponse 404 (JsonError "Task not found")))
     ∧ bobs_task ∈ Tasks db_bob).
Proof.
  apply (ownership_isolation None at_login (later 0) login_alice
           (as_alice (Exec.hex 20) None) db_users db_users db_bob tokA
           alice 2%N bobs_task).
  - vm_compute; reflexivity.
  - vm_compute; reflexivity.
  - simpl; lia.
  - reflexivity.
  - compute_true.
  - compute_true.
  - reflexivity.
  - simpl; discriminate.
Defined.

(** The token Alice got at second 1000 is good until second 4600. *)
Lemma token_expiry_witness :
  ∃ user, user ∈ Users db_users ∧
    ∀ (r : Route) (e : Env) (req : Request) (db : Db),
      uses_authenticate r = true →
      authorization req = Some tokA →
      (now at_login + 3600 ≤ now e →
         app None r e req db = (db, inr invalid_token))
      ∧ (now e < now at_login + 3600 →
         app None r e req db =
           handler None r e
             (set_userId req (Some (JStr (toHexString (User._id user))))) db).
Proof.
  apply (token_expiry None at_login login_alice db_users db_users tokA).
  vm_compute; reflexivity.
Defined.

(** An unknown user and Alice with Bob's password get the same answer. *)
Lemma login_failure_uniform_witness :
  post_login None at_login (request None "" (Some "carol") (Some "pw1") None)
    db_users = (db_users, inr invalid_credentials)
  ∧ post_login None at_login (request None "" (Some "alice") (Some "pw2") None)
      db_users = (db_users, inr invalid_credentials).
Proof.
  split.
  - apply (login_failure_uniform None at_login _ db_users "carol" "pw1");
      [reflexivity | discriminate | reflexivity | discriminate |].
    left. compute_true.
  - apply (login_failure_uniform None at_login _ db_users "alice" "pw2");
      [reflexivity | discriminate | reflexivity | discriminate |].
    right. exists 0%nat, alice. split; vm_compute; reflexivity.
Defined.

(** C4, as stated, fails for a password that is not a string: the number
    123 passes the [!password] test; for the stored username "alice"
    [bcrypt.compare] then throws and the answer is 500 "Failed to log in",
    while for the unknown username "carol" it is the 401. *)
Lemma login_number_password :
  "alice" ∈ (User.username <$> Users db_users)
  ∧ ("carol" ∉ (User.username <$> Users db_users))
  ∧ js_not_val (Some (JNum 123)) = false
  ∧ post_login None at_login
      (mkRequest None "" (Some "alice") (Some (JNum 123)) None None) db_users
    = (db_users, inr (mkResponse 500 (JsonError "Failed to log in")))
  ∧ post_login None at_login
      (mkRequest None "" (Some "carol") (Some (JNum 123)) None None) db_users
    = (db_users, inr invalid_credentials).
Proof.
  split_and!; [compute_true | compute_true | reflexivity | reflexivity..].
Qed.

(** C5, as stated, fails for the empty password: the second registration
    of a stored username is then answered "Username and password are
    required", not "Username already exists". (And for a password that is
    not a string, such as the number 123, [bcrypt.hash] throws and the
    answer is 500 "Failed to register user".) *)
Lemma duplicate_registration_empty_password :
  "alice" ∈ (User.username <$> Users db_users)
  ∧ post_register at_login (request None "" (Some "alice") (Some "") None)
      db_users
    = (db_users,
       inr (mkResponse 400 (JsonError "Username and password are required")))
  ∧ post_register at_login (request None "" (Some "alice") (Some "") None)
      db_users
    ≠ (db_users, inr (mkResponse 400 (JsonError "Username already exists")))
  ∧ post_register at_login
      (mkRequest None "" (Some "alice") (Some (JNum 123)) None None) db_users
    = (db_users, inr (mkResponse 500 (JsonError "Failed to register user"))).
Proof.
  split_and!; [compute_true | reflexivity | discriminate | reflexivity].
Qed.

(** Registering "alice" again, with another password: one operation, the
    refused [save]. *)
Lemma duplicate_registration_witness :
  post_register (later 3) (request None "" (Some "alice") (Some "other") None)
    db_users
    = (db_users, inr (mkResponse 400 (JsonError "Username already exists")))
  ∧ post_register (later 3) (request None "" (Some "alice") (Some "other") None)
      (mkWorld db_users true [])
    = (mkWorld db_users true
         [Op_User_save (User.mk 3 "alice" (bcrypt_hash "other" 10 ""))],
       inr (mkResponse 400 (JsonError "Username already exists")))
  ∧ User_save (new_User 3 "alice" (bcrypt_hash "other" 10 "")) db_users
    = (db_users, inl (MongoServerError 11000)).
Proof.
  apply (duplicate_registration (later 3) _ db_users "alice" "other" []);
    [reflexivity | discriminate | reflexivity | discriminate |].
  compute_true.
Defined.

(** Alice creates "buy milk" in a store without tasks. *)
Lemma create_postcondition_witness :
  (body_text (as_alice "" (Some "buy milk")) = None
   ∨ body_text (as_alice "" (Some "buy milk")) = Some "" →
     app None POST_tasks (later 10) (as_alice "" (Some "buy milk")) db_users =
       (db_users, inr (mkResponse 400 (JsonError "Task text is required"))))
  ∧ (∀ txt, body_text (as_alice "" (Some "buy milk")) = Some txt → txt ≠ "" →
       newId (later 10) ∉ (Task._id <$> Tasks db_users) →
       app None POST_tasks (later 10) (as_alice "" (Some "buy milk")) db_users =
         (mkDb (Users db_users)
            (Tasks db_users ++ [Task.mk (newId (later 10)) txt false (Some 1%N)]),
          inr (mkResponse 201
                 (JsonTask (Task.mk (newId (later 10)) txt false (Some 1%N)))))).
Proof.
  apply (create_postcondition None (later 10) (as_alice "" (Some "buy milk"))
           db_users tokA (stamp [("userId", JStr (Exec.hex 1))] 1000 3600) 1%N).
  - reflexivity.
  - vm_compute; reflexivity.
  - vm_compute; reflexivity.
Defined.

(** C7, as stated, fails when the owner already has such a task: the
    second "buy milk" is created as well, and the list then holds two. *)
Lemma create_then_list_two :
  app None POST_tasks (later 10) (as_alice "" (Some "buy milk")) db_users
    = (db_milk1, inr (mkResponse 201 (JsonTask milk1)))
  ∧ app None POST_tasks (later 11) (as_alice "" (Some "buy milk")) db_milk1
    = (db_milk2, inr (mkResponse 201 (JsonTask milk2)))
  ∧ app None GET_tasks (later 0) (as_alice "" None) db_milk2
    = (db_milk2, inr (mkResponse 200 (JsonTasks [milk1; milk2])))
  ∧ length (filter buy_milk [milk1; milk2]) = 2%nat.
Proof. split_and!; vm_compute; reflexivity. Qed.

(** Alice's second "buy milk": the list grows by that task. *)
Lemma create_then_list_witness :
  ∃ l t,
    app None GET_tasks (later 0) (as_alice "" None) db_milk1
      = (db_milk1, inr (mkResponse 200 (JsonTasks l)))
    ∧ app None GET_tasks (later 0) (as_alice "" None) db_milk2
      = (db_milk2, inr (mkResponse 200 (JsonTasks (l ++ [t]))))
    ∧ JsonTask milk2 = JsonTask t ∧ buy_milk t
    ∧ length (filter buy_milk (l ++ [t])) = S (length (filter buy_milk l)).
Proof.
  apply (create_then_list None (later 11) (later 0)
           (as_alice "" (Some "buy milk")) (as_alice "" None)
           db_milk1 db_milk2 (JsonTask milk2) tokA tokA
           (stamp [("userId", JStr (Exec.hex 1))] 1000 3600)
           (stamp [("userId", JStr (Exec.hex 1))] 1000 3600)).
  - reflexivity.
  - vm_compute; reflexivity.
  - reflexivity.
  - vm_compute; reflexivity.
  - reflexivity.
  - reflexivity.
  - vm_compute; reflexivity.
Defined.

(** Alice's token is accepted as the header and refused after "Bearer ". *)
Lemma literal_token_transport_witness :
  authenticate None (later 0) (request (Some tokA) "" None None None)
    = Next (set_userId (request (Some tokA) "" None None None)
              (Some (JStr (Exec.hex 1))))
  ∧ authenticate None (later 0)
      (request (Some ("Bearer " +:+ tokA)) "" None None None)
    = Responded invalid_token
  ∧ app None GET_tasks (later 0)
      (request (Some ("Bearer " +:+ tokA)) "" None None None) db_milk1
    = (db_milk1, inr invalid_token).
Proof.
  split_and!.
  - rewrite (proj1 (literal_token_transport None (later 0)
                      (request (Some tokA) "" None None None)) tokA);
      [vm_compute; reflexivity | reflexivity | discriminate].
  - by apply (proj2 (literal_token_transport None (later 0)
                       (request (Some ("Bearer " +:+ tokA)) "" None None None))
                tokA).
  - by apply (proj2 (literal_token_transport None (later 0)
                       (request (Some ("Bearer " +:+ tokA)) "" None None None))
                tokA).
Defined.

(** A token signed over the empty payload passes the gate; the list
    is then that of the tasks without owner, here none. *)
Lemma gate_checks_verification_only_witness :
  authenticate None (later 0) (request (Some tok_anonymous) "" None None None)
    = Next (set_userId (request (Some tok_anonymous) "" None None None) None)
  ∧ app None GET_tasks (later 0)
      (request (Some tok_anonymous) "" None None None) db_milk1
    = (db_milk1, inr (mkResponse 200 (JsonTasks []))).
Proof.
  destruct (proj2 (gate_checks_verification_only None (later 0)
                     (request (Some tok_anonymous) "" None None None))
              tok_anonymous (stamp [] 1000 3600))
    as (Hnext & _ & Hlist);
    [reflexivity | vm_compute; reflexivity | reflexivity |].
  split; [exact Hnext | exact (Hlist db_milk1)].
Defined.

(** The scenario of the specification: register, log in, create a task,
    list it, delete it, list again. *)
Example scenario_run :
  let register := request None "" (Some "alice") (Some "pw1") None in
  let user := User.mk 1 "alice" (Exec.hash "pw1" 10 "") in
  let task := Task.mk 10 "x" false (Some 1%N) in
  app None POST_register (mkEnv 900 1 "") register (mkDb [] [])
    = (mkDb [user] [],
       inr (mkResponse 201 (JsonMessage "User registered successfully")))
  ∧ app None POST_login at_login register (mkDb [user] [])
    = (mkDb [user] [], inr (mkResponse 200 (JsonToken tokA)))
  ∧ app None POST_tasks (later 10) (as_alice "" (Some "x")) (mkDb [user] [])
    = (mkDb [user] [task], inr (mkResponse 201 (JsonTask task)))
  ∧ app None GET_tasks (later 0) (as_alice "" None) (mkDb [user] [task])
    = (mkDb [user] [task], inr (mkResponse 200 (JsonTasks [task])))
  ∧ app None DELETE_tasks_id (later 0) (as_alice (Exec.hex 10) None)
      (mkDb [user] [task])
    = (mkDb [user] [],
       inr (mkResponse 200 (JsonMessage "Task deleted successfully")))
  ∧ app None GET_tasks (later 0) (as_alice "" None) (mkDb [user] [])
    = (mkDb [user] [], inr (mkResponse 200 (JsonTasks []))).
Proof. split_and!; vm_compute; reflexivity. Qed.

(** ** The further properties on the concrete run *)

(** A token signed with the server secret whose [userId] is no ObjectId. *)
Definition tok_nobody : string :=
  Exec.sign [("userId", JStr "nobody")] secret 3600 1000.

(** Alice's token authenticates as Alice half an hour after the login. *)
Lemma alice_authenticated (id : ObjectId) (rid : string) (text : option string) :
  authenticated_as None (later id) (as_alice rid text) (Some 1%N).
Proof.
  exists tokA, (stamp [("userId", JStr (Exec.hex 1))] 1000 3600).
  split_and!; vm_compute; reflexivity.
Defined.


(** Alice deletes her task, twice. *)
Lemma delete_own_task_witness :
  ∃ db',
    app None DELETE_tasks_id (later 0) (as_alice (Exec.hex 10) None) db_both
      = (db', inr (mkResponse 200 (JsonMessage "Task deleted successfully")))
    ∧ Users db' = Users db_both
    ∧ (∀ x, x ∈ Tasks db' ↔ x ∈ Tasks db_both ∧ x ≠ milk1)
    ∧ app None DELETE_tasks_id (later 0) (as_alice (Exec.hex 10) None) db'
      = (db', inr (mkResponse 404 (JsonError "Task not found"))).
Proof.
  apply (delete_own_task None (later 0) (as_alice (Exec.hex 10) None) db_both
           (Some 1%N) milk1).
  - apply alice_authenticated.
  - compute_true.
  - compute_true.
  - reflexivity.
  - reflexivity.
Defined.

(** Alice's delete leaves Bob's task where it was. *)
Lemma others_tasks_untouched_witness :
  Users (fst (app None DELETE_tasks_id (later 0)
                (as_alice (Exec.hex 10) None) db_both)) = Users db_both
  ∧ filter (λ t, ¬ owned_by (Some 1%N) t)
      (Tasks (fst (app None DELETE_tasks_id (later 0)
                     (as_alice (Exec.hex 10) None) db_both)))
    = filter (λ t, ¬ owned_by (Some 1%N) t) (Tasks db_both).
Proof.
  apply (others_tasks_untouched None DELETE_tasks_id (later 0)
           (as_alice (Exec.hex 10) None) db_both (Some 1%N)).
  - reflexivity.
  - apply alice_authenticated.
Defined.

(** Alice lists her task and not Bob's. *)
Lemma list_own_tasks_witness :
  ∃ l, app None GET_tasks (later 0) (as_alice "" None) db_both
         = (db_both, inr (mkResponse 200 (JsonTasks l)))
       ∧ (∀ t, t ∈ l ↔ t ∈ Tasks db_both ∧ Task.userId t = Some 1%N)
       ∧ sublist l (Tasks db_both).
Proof.
  apply (list_own_tasks None (later 0) (as_alice "" None) db_both (Some 1%N)).
  apply alice_authenticated.
Defined.

(** Alice creates a task and deletes it again. *)
Lemma create_then_delete_witness :
  ∃ db1 t,
    app None POST_tasks (later 30) (as_alice "" (Some "call mum")) db_both
      = (db1, inr (mkResponse 201 (JsonTask t)))
    ∧ t ∈ Tasks db1
    ∧ (params_id (as_alice (Exec.hex 30) None) = toHexString (Task._id t) →
       app None DELETE_tasks_id (later 0) (as_alice (Exec.hex 30) None) db1
         = (db_both,
            inr (mkResponse 200 (JsonMessage "Task deleted successfully")))).
Proof.
  apply (create_then_delete None (later 30) (later 0)
           (as_alice "" (Some "call mum")) (as_alice (Exec.hex 30) None)
           db_both (Some 1%N) "call mum").
  - apply alice_authenticated.
  - reflexivity.
  - discriminate.
  - compute_true.
  - apply alice_authenticated.
Defined.

(** Alice asks to delete an id no task has, and then Bob's task. *)
Lemma delete_unknown_or_foreign_witness :
  app None DELETE_tasks_id (later 0) (as_alice (Exec.hex 99) None) db_both
    = (db_both, inr (mkResponse 404 (JsonError "Task not found")))
  ∧ app None DELETE_tasks_id (later 0) (as_alice (Exec.hex 20) None) db_both
    = (db_both, inr (mkResponse 404 (JsonError "Task not found"))).
Proof.
  split.
  - apply (delete_unknown_or_foreign None (later 0) _ db_both (Some 1%N) 99%N);
      [apply alice_authenticated | vm_compute; reflexivity |].
    intros t Ht Hid. exfalso. revert Hid.
    repeat (apply elem_of_cons in Ht as [-> | Ht]; [discriminate|]).
    by apply elem_of_nil in Ht.
  - apply (delete_unknown_or_foreign None (later 0) _ db_both (Some 1%N) 20%N);
      [apply alice_authenticated | vm_compute; reflexivity |].
    intros t Ht Hid.
    repeat (apply elem_of_cons in Ht as [-> | Ht]; [by discriminate | ]).
    by apply elem_of_nil in Ht.
Defined.

(** A route parameter that is not an ObjectId. *)
Lemma delete_malformed_id_witness :
  app None DELETE_tasks_id (later 0) (as_alice "not-an-id" None) db_both
    = (db_both, inr (mkResponse 500 (JsonError "Failed to delete task"))).
Proof.
  apply (delete_malformed_id None (later 0) (as_alice "not-an-id" None) db_both
           tokA (stamp [("userId", JStr (Exec.hex 1))] 1000 3600));
    [reflexivity | vm_compute; reflexivity | vm_compute; reflexivity].
Defined.

(** A verified token whose [userId] is the string "nobody". *)
Lemma uncastable_identity_witness :
  app None GET_tasks (later 0)
    (request (Some tok_nobody) (Exec.hex 10) None None (Some "x")) db_both
    = (db_both, inr (mkResponse 500 (JsonError "Failed to fetch tasks")))
  ∧ (js_not (body_text
               (request (Some tok_nobody) (Exec.hex 10) None None (Some "x")))
     = false →
     app None POST_tasks (later 0)
       (request (Some tok_nobody) (Exec.hex 10) None None (Some "x")) db_both
       = (db_both, inr (mkResponse 500 (JsonError "Failed to add task"))))
  ∧ app None DELETE_tasks_id (later 0)
      (request (Some tok_nobody) (Exec.hex 10) None None (Some "x")) db_both
    = (db_both, inr (mkResponse 500 (JsonError "Failed to delete task"))).
Proof.
  apply (uncastable_identity None (later 0)
           (request (Some tok_nobody) (Exec.hex 10) None None (Some "x"))
           db_both tok_nobody
           (stamp [("userId", JStr "nobody")] 1000 3600) "nobody");
    [reflexivity | vm_compute; reflexivity | reflexivity
    | vm_compute; reflexivity].
Defined.

(** The browser functions on the run: Alice logs in from the page and
    then asks for her tasks. *)
Example page_run :
  let page := mkBrowser "alice" "pw1" None [] [] in
  let logged_in := mkBrowser "alice" "pw1" (Some tokA) [Some "Login successful!"] [] in
  loginUser None at_login (page, db_milk1) = (logged_in, db_milk1)
  ∧ fetchTasks None (later 0) (logged_in, db_milk1)
    = (console_log (JsonError "Invalid token") logged_in, db_milk1).
Proof. split; vm_compute; reflexivity. Qed.
